(** * Authentication and profile service: handlers, store and bootstrap

    A shallow embedding of the request handlers of
    [controllers/authController.js] and [controllers/profileController.js],
    of the preflight handlers of [routes/authRoutes.js] and [server.js], and
    of the start-up connection code of [config/db.js] and [server.js].

    The document store, the hashing library and the token library are
    outside the repository; they appear here as an explicit store state and
    as section variables. *)

From Stdlib Require Import String Ascii List Bool Arith NArith Lia.
Import ListNotations.
Open Scope string_scope.

(** ** Data model *)

(** A stored user document.  Identifiers are drawn from a counter that
    stands for the store's object identifiers. *)
Module User.
Record t := mk {
  _id : nat;
  name : string;
  email : string;
  password : string;
  phone : option string;
  profilePicture : option string
}.
End User.

(** A document in the hands of a handler: the field values, whether it was
    made by [new User(...)] and whether [password] was assigned since it was
    loaded. *)
Record Doc := mkDoc {
  fields : User.t;
  isNew : bool;
  passwordModified : bool
}.

(** The body of a signup: name, email and secret, and the two optional
    fields. *)
Record SignupRequest := mkSignupRequest {
  signup_name : string;
  signup_email : string;
  signup_password : string;
  signup_phone : option string;
  signup_profilePicture : option string
}.

(** The fields of the body of an update: [None] is a field that is not
    in the body. *)
Record UpdateRequest := mkUpdateRequest {
  update_name : option string;
  update_email : option string;
  update_phone : option string;
  update_profilePicture : option string;
  update_password : option string
}.

(** Store operations, as they are issued by the handlers. *)
Inductive StoreOp :=
| OpFindOne (email : string)
| OpFindById (id : nat)
| OpSave (id : nat).

(** The world a handler runs in: the stored users in insertion order, the
    outcome of the coming store operations ([true]: the operation throws;
    an exhausted schedule means no further failure), the operations issued
    so far (most recent first), the next fresh identifier and the clock in
    seconds. *)
Record World := mkWorld {
  users : list User.t;
  faults : list bool;
  oplog : list StoreOp;
  next_id : nat;
  now : N
}.

(** ** Exceptions and state *)

Inductive result (A : Type) :=
| Ok (a : A)
| Throw (msg : string).
Arguments Ok {A} a.
Arguments Throw {A} msg.

Definition M (A : Type) := World -> result A * World.

Definition ret {A} (a : A) : M A := fun w => (Ok a, w).

Definition throw {A} (msg : string) : M A := fun w => (Throw msg, w).

Definition bind {A B} (m : M A) (k : A -> M B) : M B :=
  fun w =>
    match m w with
    | (Ok a, w') => k a w'
    | (Throw e, w') => (Throw e, w')
    end.

Notation "x <- m ;; k" := (bind m (fun x => k))
  (at level 61, m at next level, right associativity).
Notation "m ;;; k" := (bind m (fun _ => k))
  (at level 61, right associativity).

(** ** Responses *)

Module Jwt.
(** The claims of a token: the payload's [id] and the issue and expiry
    times the library adds. *)
Record Claims := mkClaims { id : nat; iat : N; exp : N }.
Record Token := mkToken { claims : Claims; signature : string }.
End Jwt.

(** A value of a document field in a JSON body. *)
Inductive FieldValue :=
| VId (n : nat)
| VStr (s : string).

(** The JSON bodies the handlers send. *)
Inductive Body :=
| ErrorBody (error : string)
| SignupBody (message : string) (token : Jwt.Token)
| LoginBody (token : Jwt.Token)
| MessageBody (message : string)
| DocBody (doc : option (list (string * FieldValue))).

Record Response := mkResponse { status : nat; body : Body }.

(** [try { ... } catch (err) { ... }] around a handler's body. *)
Definition try_catch (m : M Response) (handler : string -> Response)
  : World -> Response * World :=
  fun w =>
    match m w with
    | (Ok r, w') => (r, w')
    | (Throw e, w') => (handler e, w')
    end.

(** ** The store *)

(** The world after one more store operation was issued. *)
Definition tick (op : StoreOp) (w : World) : World :=
  mkWorld (users w) (tl (faults w)) (op :: oplog w) (next_id w) (now w).

Definition next_fails (w : World) : bool :=
  match faults w with
  | true :: _ => true
  | _ => false
  end.

(** One round trip to the store: it is logged, and it throws when the
    schedule says so. *)
Definition store_op (op : StoreOp) : M unit :=
  fun w =>
    if next_fails w then (Throw "store error", tick op w)
    else (Ok tt, tick op w).

Definition loaded (u : User.t) : Doc := mkDoc u false false.

(** [User.findOne({ email })] *)
Definition findOne (email : string) : M (option Doc) :=
  store_op (OpFindOne email) ;;;
  fun w =>
    (Ok (option_map loaded
           (find (fun u => String.eqb (User.email u) email) (users w))), w).

(** [User.findById(id)] *)
Definition findById (id : nat) : M (option Doc) :=
  store_op (OpFindById id) ;;;
  fun w =>
    (Ok (option_map loaded
           (find (fun u => Nat.eqb (User._id u) id) (users w))), w).

(** Replace the stored document that carries the identifier of [u]. *)
Fixpoint replace (u : User.t) (us : list User.t) : option (list User.t) :=
  match us with
  | [] => None
  | v :: rest =>
      if Nat.eqb (User._id v) (User._id u) then Some (u :: rest)
      else option_map (cons v) (replace u rest)
  end.

Definition set_users (us : list User.t) : M unit :=
  fun w => (Ok tt, mkWorld us (faults w) (oplog w) (next_id w) (now w)).

Definition get_users : M (list User.t) := fun w => (Ok (users w), w).

(** A fresh object identifier, as [new User(...)] draws one. *)
Definition fresh_id : M nat :=
  fun w =>
    (Ok (next_id w),
     mkWorld (users w) (faults w) (oplog w) (S (next_id w)) (now w)).

Definition with_password (u : User.t) (p : string) : User.t :=
  User.mk (User._id u) (User.name u) (User.email u) p
          (User.phone u) (User.profilePicture u).

Definition with_name (u : User.t) (n : string) : User.t :=
  User.mk (User._id u) n (User.email u) (User.password u)
          (User.phone u) (User.profilePicture u).

Definition with_email (u : User.t) (e : string) : User.t :=
  User.mk (User._id u) (User.name u) e (User.password u)
          (User.phone u) (User.profilePicture u).

Definition with_phone (u : User.t) (p : string) : User.t :=
  User.mk (User._id u) (User.name u) (User.email u) (User.password u)
          (Some p) (User.profilePicture u).

Definition with_profilePicture (u : User.t) (p : string) : User.t :=
  User.mk (User._id u) (User.name u) (User.email u) (User.password u)
          (User.phone u) (Some p).

(** Assignments to a loaded document. *)
Definition assign_name (d : Doc) (n : string) : Doc :=
  mkDoc (with_name (fields d) n) (isNew d) (passwordModified d).

Definition assign_email (d : Doc) (e : string) : Doc :=
  mkDoc (with_email (fields d) e) (isNew d) (passwordModified d).

Definition assign_phone (d : Doc) (p : string) : Doc :=
  mkDoc (with_phone (fields d) p) (isNew d) (passwordModified d).

Definition assign_profilePicture (d : Doc) (p : string) : Doc :=
  mkDoc (with_profilePicture (fields d) p) (isNew d) (passwordModified d).

Definition assign_password (d : Doc) (p : string) : Doc :=
  mkDoc (with_password (fields d) p) (isNew d) true.

(** ** The token library *)

Definition is_digit (c : ascii) : bool :=
  let n := nat_of_ascii c in Nat.leb 48 n && Nat.leb n 57.

Fixpoint leading_number (s : string) (acc : N) : N * string :=
  match s with
  | String c rest =>
      if is_digit c
      then leading_number rest (10 * acc + N.of_nat (nat_of_ascii c - 48))%N
      else (acc, s)
  | EmptyString => (acc, s)
  end.

(** The library's reading of an [expiresIn] string such as ['30d'], in
    seconds. *)
Definition timespan (s : string) : option N :=
  match s with
  | EmptyString => None
  | String c _ =>
      if is_digit c then
        let (n, unit) := leading_number s 0%N in
        if String.eqb unit "d" then Some (n * 86400)%N
        else if String.eqb unit "h" then Some (n * 3600)%N
        else if String.eqb unit "m" then Some (n * 60)%N
        else if String.eqb unit "s" then Some n
        else None
      else None
  end.

(** ** Start-up: config/db.js and the two variants of server.js *)

Module Bootstrap.

Inductive Event :=
| Connect
| Log (msg : string)
| Sleep (ms : N)
| Exit (code : nat).

(** How an awaited call comes back: it resolves, it rejects, or the
    process was ended inside it. *)
Inductive Outcome :=
| Resolved
| Rejected (msg : string)
| Exited (code : nat).

(** The process: whether each coming [mongoose.connect] fails ([true]:
    it rejects; an exhausted schedule connects), and the events so far,
    most recent first. *)
Record Proc := mkProc {
  failures : list bool;
  trace : list Event
}.

Definition emit (e : Event) (p : Proc) : Proc :=
  mkProc (failures p) (e :: trace p).

(** [mongoose.connect(uri)] *)
Definition mongoose_connect (p : Proc) : Outcome * Proc :=
  let p' := mkProc (tl (failures p)) (Connect :: trace p) in
  match failures p with
  | true :: _ => (Rejected "connection refused", p')
  | _ => (Resolved, p')
  end.

(** [!process.env.MONGODB_URI]: the variable is unset, or set to the
    empty string. *)
Definition missing (v : option string) : bool :=
  match v with
  | Some s => String.eqb s ""
  | None => true
  end.

(** [connectDB] of config/db.js: every error, the missing URI included,
    is caught inside and ends the process with code 1. *)
Definition connectDB (MONGODB_URI : option string) (p : Proc)
  : Outcome * Proc :=
  let caught (p : Proc) :=
    (Exited 1, emit (Exit 1) (emit (Log "MongoDB Connection Error") p)) in
  if missing MONGODB_URI then caught p
  else
    match mongoose_connect p with
    | (Resolved, p') =>
        (Resolved, emit (Log "MongoDB connected successfully...") p')
    | (Rejected _, p') => caught p'
    | (Exited c, p') => (Exited c, p')
    end.

Definition MAX_RETRIES : nat := 5.

Section Retry.

(** The [connectDB] the server was given. *)
Variable connectDB : Proc -> Outcome * Proc.

(** server.js, first variant: [retryCount] counts the retries and the
    loop gives up after [MAX_RETRIES] of them.  [None]: the fuel ran
    out. *)
Fixpoint connectWithRetry (fuel retryCount : nat) (p : Proc)
  : option (Outcome * Proc) :=
  match fuel with
  | O => None
  | S fuel =>
      match connectDB p with
      | (Resolved, p) =>
          Some (Resolved, emit (Log "MongoDB connected successfully") p)
      | (Rejected _, p) =>
          let p := emit (Log "MongoDB connection error") p in
          if Nat.ltb retryCount MAX_RETRIES then
            let retryCount := S retryCount in
            let p := emit (Log "Retrying connection in 5 seconds...") p in
            connectWithRetry fuel retryCount (emit (Sleep 5000) p)
          else
            let p := emit (Log "Maximum retries reached. Exiting...") p in
            Some (Exited 1, emit (Exit 1) p)
      | (Exited c, p) => Some (Exited c, p)
      end
  end.

(** server.js, second variant: the loop has no bound. *)
Fixpoint connectWithRetry_unbounded (fuel : nat) (p : Proc)
  : option (Outcome * Proc) :=
  match fuel with
  | O => None
  | S fuel =>
      match connectDB p with
      | (Resolved, p) =>
          Some (Resolved, emit (Log "MongoDB connected successfully") p)
      | (Rejected _, p) =>
          let p := emit (Log "MongoDB connection error") p in
          let p := emit (Log "Retrying connection in 5 seconds...") p in
          connectWithRetry_unbounded fuel (emit (Sleep 5000) p)
      | (Exited c, p) => Some (Exited c, p)
      end
  end.

End Retry.

Definition is_sleep (e : Event) : bool :=
  match e with Sleep _ => true | _ => false end.

Definition is_connect (e : Event) : bool :=
  match e with Connect => true | _ => false end.

(** The durations of the pauses in a trace, most recent first. *)
Fixpoint pauses_of (tr : list Event) : list N :=
  match tr with
  | [] => []
  | Sleep ms :: rest => ms :: pauses_of rest
  | _ :: rest => pauses_of rest
  end.

Definition pauses (p : Proc) : list N := pauses_of (trace p).

(** The number of pauses and of connection attempts in a trace. *)
Definition sleeps (p : Proc) : nat := length (filter is_sleep (trace p)).
Definition connects (p : Proc) : nat := length (filter is_connect (trace p)).

End Bootstrap.

(** ** Preflight handling: routes/authRoutes.js and server.js *)

Module Cors.

Inductive Method := GET | POST | PUT | DELETE | OPTIONS | HEAD | PATCH.

Definition method_eqb (a b : Method) : bool :=
  match a, b with
  | GET, GET | POST, POST | PUT, PUT | DELETE, DELETE
  | OPTIONS, OPTIONS | HEAD, HEAD | PATCH, PATCH => true
  | _, _ => false
  end.

(** What the preflight handlers read of a request: [origin] is
    [req.headers.origin], [None] when the header is not sent. *)
Record Request := mkRequest {
  method : Method;
  path : string;
  origin : option string
}.

Record Res := mkRes {
  headers : list (string * string);
  statusCode : nat
}.

(** A response nothing was written on yet. *)
Definition fresh : Res := mkRes [] 200.

(** [res.header(name, value)] sets the header, replacing an earlier
    value. *)
Definition header (name value : string) (res : Res) : Res :=
  mkRes ((name, value)
           :: filter (fun kv => negb (String.eqb (fst kv) name))
                     (headers res))
        (statusCode res).

Definition status (code : nat) (res : Res) : Res :=
  mkRes (headers res) code.

Definition get_header (name : string) (res : Res) : option string :=
  option_map snd (find (fun kv => String.eqb (fst kv) name) (headers res)).

(** A header value given as a possibly undefined string. *)
Definition to_string (v : option string) : string :=
  match v with
  | Some s => s
  | None => "undefined"
  end.

Definition allowedOrigins : list string :=
  ["https://frontend-three-zeta-94.vercel.app"; "http://localhost:3000"].

(** [allowedOrigins.includes(origin)] *)
Definition includes (l : list string) (v : option string) : bool :=
  match v with
  | Some s => existsb (String.eqb s) l
  | None => false
  end.

(** What a layer does with the response: it passes on, or it ends the
    response. *)
Inductive Step :=
| Next (res : Res)
| End (res : Res).

Record Layer := mkLayer {
  matches : Request -> bool;
  handle : Request -> Res -> Step
}.

(** The layers of a stack are tried in the order of registration; the
    first that ends the response stops the walk. *)
Fixpoint run (stack : list Layer) (req : Request) (res : Res) : Step :=
  match stack with
  | [] => Next res
  | l :: rest =>
      if matches l req then
        match handle l req res with
        | End res' => End res'
        | Next res' => run rest req res'
        end
      else run rest req res
  end.

(** The answer of an application: a request no layer ended is answered
    404. *)
Definition respond (stack : list Layer) (req : Request) : Res :=
  match run stack req fresh with
  | End res => res
  | Next res => status 404 res
  end.

(** Routes are matched as Express matches them by default: without
    regard to the case of letters, and with or without one trailing
    slash. *)
Definition lower (c : ascii) : ascii :=
  let n := nat_of_ascii c in
  if Nat.leb 65 n && Nat.leb n 90 then ascii_of_nat (n + 32) else c.

Fixpoint lowercase (s : string) : string :=
  match s with
  | EmptyString => EmptyString
  | String c rest => String (lower c) (lowercase rest)
  end.

Fixpoint without_trailing_slash (s : string) : string :=
  match s with
  | EmptyString => EmptyString
  | String c EmptyString =>
      if Ascii.eqb c "/" then EmptyString else String c EmptyString
  | String c rest => String c (without_trailing_slash rest)
  end.

Definition same_path (p q : string) : bool :=
  String.eqb (without_trailing_slash (lowercase p))
             (without_trailing_slash (lowercase q)).

(** [app.METHOD(path, handler)] with a handler that ends the response;
    ['*'] is every path. *)
Definition route (m : Method) (p : string) (h : Request -> Res -> Res)
  : Layer :=
  mkLayer
    (fun req =>
       method_eqb (method req) m
       && (String.eqb p "*" || same_path p (path req)))
    (fun req res => End (h req res)).

(** [app.use(middleware)] *)
Definition use (h : Request -> Res -> Step) : Layer :=
  mkLayer (fun _ => true) h.

(** [app.use(prefix, router)]: the router sees the path below the
    prefix. *)
Definition mounted (prefix p : string) : bool :=
  String.eqb (lowercase p) (lowercase prefix)
  || String.prefix (lowercase prefix ++ "/") (lowercase p).

Definition below (prefix p : string) : string :=
  let rest := substring (String.length prefix)
                        (String.length p - String.length prefix) p in
  if String.eqb rest "" then "/" else rest.

Definition mount (prefix : string) (router : list Layer) : Layer :=
  mkLayer
    (fun req => mounted prefix (path req))
    (fun req res =>
       run router
           (mkRequest (method req) (below prefix (path req)) (origin req))
           res).

(** routes/authRoutes.js: [router.options('/signup', ...)] *)
Definition signup_options (req : Request) (res : Res) : Res :=
  let res := header "Access-Control-Allow-Origin"
                    (to_string (origin req)) res in
  let res := header "Access-Control-Allow-Methods" "POST, OPTIONS" res in
  let res := header "Access-Control-Allow-Headers"
                    "Content-Type, Authorization" res in
  status 200 res.

(** The router of routes/authRoutes.js: the preflight handler, then the
    four credential routes. *)
Definition authRoutes (credential_routes : list Layer) : list Layer :=
  route OPTIONS "/signup" signup_options :: credential_routes.

(** server.js, second variant: [app.options('*', ...)] *)
Definition options_all (req : Request) (res : Res) : Res :=
  let origin := origin req in
  let res :=
    if includes allowedOrigins origin then
      let res := header "Access-Control-Allow-Origin"
                        (to_string origin) res in
      let res := header "Access-Control-Allow-Methods"
                        "GET, POST, PUT, DELETE, OPTIONS" res in
      let res := header "Access-Control-Allow-Headers"
                        "Content-Type, Authorization, x-auth-token" res in
      let res := header "Access-Control-Allow-Credentials" "true" res in
      header "Vary" "Origin" res
    else res in
  status 204 res.

(** server.js, second variant: the middleware that sets the headers on
    every response. *)
Definition manual_cors (req : Request) (res : Res) : Step :=
  let origin := origin req in
  Next (if includes allowedOrigins origin then
          let res := header "Access-Control-Allow-Origin"
                            (to_string origin) res in
          let res := header "Access-Control-Allow-Credentials" "true" res in
          header "Vary" "Origin" res
        else res).

(** The stack of the second variant of server.js, in the order of
    registration.  The [cors] package, the body parsers and the handlers
    behind them are given: [middleware] stands for [cors(...)], the
    logging, the timeouts and the parsers, [later] for the health
    routes and the error handler. *)
Definition app (middleware credential_routes later : list Layer)
  : list Layer :=
  route OPTIONS "*" options_all
    :: use manual_cors
    :: middleware
    ++ mount "/api/auth" (authRoutes credential_routes)
    :: later.

(** The three headers a preflight answer grants access with. *)
Definition grants (res : Res) : bool :=
  match get_header "Access-Control-Allow-Origin" res,
        get_header "Access-Control-Allow-Methods" res,
        get_header "Access-Control-Allow-Headers" res with
  | None, None, None => false
  | _, _, _ => true
  end.

End Cors.

(** ** The error handlers and the address listing of server.js *)

Module Server.

(** What the error handlers read of an error: [err.message] and
    [err.code]. *)
Record Err := mkErr {
  message : string;
  code : option string
}.

(** The JSON body of an error answer; a field that is [undefined] is not
    in the body. *)
Record ErrorJson := mkErrorJson {
  error : string;
  body_message : option string;
  body_allowedOrigins : option (list string)
}.

Record ErrorAnswer := mkErrorAnswer {
  statusCode : nat;
  json : ErrorJson
}.

(** [process.env.NODE_ENV === 'development' ? err.message : undefined] *)
Definition development_only (NODE_ENV : option string) (err : Err)
  : option string :=
  match NODE_ENV with
  | Some env => if String.eqb env "development" then Some (message err)
                else None
  | None => None
  end.

Definition is_ETIMEDOUT (err : Err) : bool :=
  match code err with
  | Some c => String.eqb c "ETIMEDOUT"
  | None => false
  end.

(** [s.includes(sub)] *)
Fixpoint includes (sub s : string) : bool :=
  if String.prefix sub s then true
  else
    match s with
    | EmptyString => false
    | String _ rest => includes sub rest
    end.

(** server.js, first variant: the error-handling middleware. *)
Definition errorHandler (NODE_ENV : option string) (err : Err)
  : ErrorAnswer :=
  let statusCode := if is_ETIMEDOUT err then 504 else 500 in
  mkErrorAnswer statusCode
    (mkErrorJson
       (if Nat.eqb statusCode 504 then "Gateway Timeout"
        else "Internal Server Error")
       (development_only NODE_ENV err)
       None).

(** server.js, second variant: the error-handling middleware. *)
Definition errorHandler_cors (NODE_ENV : option string) (err : Err)
  : ErrorAnswer :=
  if includes "CORS" (message err) then
    mkErrorAnswer 403
      (mkErrorJson "Forbidden - CORS" (Some (message err))
                   (Some Cors.allowedOrigins))
  else if is_ETIMEDOUT err then
    mkErrorAnswer 504
      (mkErrorJson "Gateway Timeout"
                   (Some "Request took too long to process") None)
  else
    mkErrorAnswer 500
      (mkErrorJson "Internal Server Error"
                   (development_only NODE_ENV err) None).

(** An entry of [os.networkInterfaces()]. *)
Record NetInterface := mkNetInterface {
  address : string;
  family : string;
  internal : bool
}.

(** [os.networkInterfaces()]: an object from interface names to the
    addresses assigned to them, in the order of its keys. *)
Definition Interfaces := list (string * list NetInterface).

(** [net.family === 'IPv4' && !net.internal] *)
Definition reachable (net : NetInterface) : bool :=
  String.eqb (family net) "IPv4" && negb (internal net).

(** [obj[name]] *)
Definition lookup (name : string) (ifs : Interfaces) : list NetInterface :=
  match find (fun kv => String.eqb (fst kv) name) ifs with
  | Some kv => snd kv
  | None => []
  end.

(** server.js, first variant:
    [Object.values(...).flat().filter(...).map(net => net.address)] *)
Definition addresses (ifs : Interfaces) : list string :=
  map address (filter reachable (concat (map snd ifs))).

(** server.js, second variant: the two nested loops that push onto
    [addresses]. *)
Definition addresses_loops (ifs : Interfaces) : list string :=
  fold_left
    (fun addresses name =>
       fold_left
         (fun addresses net =>
            if reachable net then (addresses ++ [address net])%list
            else addresses)
         (lookup name ifs) addresses)
    (map fst ifs) [].

(** The address the start-up message names: [addresses[0]], when there is
    one. *)
Definition announced (addresses : list string) : option string :=
  match addresses with
  | a :: _ => Some a
  | [] => None
  end.

End Server.

(** ** A small instance *)

Module Sample.

Definition hash (s : string) : string := "$2a$10$" ++ s.

Definition compare (entered hashed : string) : bool :=
  String.eqb (hash entered) hashed.

Definition hmac (secret : string) (c : Jwt.Claims) : string :=
  secret ++ "." ++ String (ascii_of_nat (Jwt.id c)) "".

Definition validate (u : User.t) : bool :=
  negb (String.eqb (User.name u) "")
  && negb (String.eqb (User.email u) "")
  && negb (String.eqb (User.password u) "").

Definition JWT_SECRET : string := "secret".

Definition alice : User.t :=
  User.mk 1 "A" "a@x.com" (hash "pw1") (Some "555-0100") None.

Definition bob : User.t :=
  User.mk 2 "B" "b@x.com" (hash "pw2") None None.

Definition world : World :=
  mkWorld [alice; bob] [] [] 3 1700000000%N.

(** The same store with its next store operation failing. *)
Definition broken : World :=
  mkWorld [alice; bob] [true] [] 3 1700000000%N.

Definition carol : SignupRequest :=
  mkSignupRequest "C" "c@x.com" "pw3" None None.

Definition again : SignupRequest :=
  mkSignupRequest "A2" "a@x.com" "pw9" None None.

End Sample.

Section Service.

(** The hashing library's one-way hash and its comparison of a candidate
    with a stored hash. *)
Variable hash : string -> string.
Variable compare : string -> string -> bool.

(** The token library's signature over a set of claims. *)
Variable hmac : string -> Jwt.Claims -> string.

(** The schema's validation of [models/User.js]. *)
Variable validate : User.t -> bool.

(** [process.env.JWT_SECRET], a key that the configuration supplies: it
    is set and it is not empty.  [signup_env] below takes the variable as
    the environment gives it. *)
Variable JWT_SECRET : string.

(** [jwt.sign({ id }, secret, { expiresIn })] *)
Definition jwt_sign (id : nat) (secret expiresIn : string) : M Jwt.Token :=
  fun w =>
    match timespan expiresIn with
    | Some span =>
        let c := Jwt.mkClaims id (now w) (now w + span)%N in
        (Ok (Jwt.mkToken c (hmac secret c)), w)
    | None => (Throw "bad expiresIn", w)
    end.


(** ** The user model *)

(** Modelled from the spec: the save hook of [models/User.js], which is
    not among the sources.  A password that was assigned is stored as its
    hash; a password that was not touched is stored as it is. *)
Definition pre_save (d : Doc) : Doc :=
  if passwordModified d
  then mkDoc (with_password (fields d) (hash (User.password (fields d))))
             (isNew d) false
  else d.

(** Modelled from the spec: [matchPassword] of [models/User.js], which is
    not among the sources: the hashing library compares the entered
    secret with the stored hash. *)
Definition matchPassword (d : Doc) (entered : string) : bool :=
  compare entered (User.password (fields d)).

(** [new User({ name, email, password, phone, profilePicture })] *)
Definition new_User (name email password : string)
           (phone profilePicture : option string) : M Doc :=
  id <- fresh_id ;;
  ret (mkDoc (User.mk id name email password phone profilePicture)
             true true).

(** [doc.save()]: validation, the save hook, then one write. *)
Definition save (d : Doc) : M Doc :=
  if negb (validate (fields d)) then throw "validation failed"
  else
    let d' := pre_save d in
    store_op (OpSave (User._id (fields d'))) ;;;
    us <- get_users ;;
    if isNew d' then
      set_users (us ++ [fields d']) ;;;
      ret (mkDoc (fields d') false false)
    else
      match replace (fields d') us with
      | Some us' => set_users us' ;;; ret (mkDoc (fields d') false false)
      | None => throw "document not found"
      end.

(** ** controllers/authController.js *)

Definition signup (req : SignupRequest) : World -> Response * World :=
  try_catch
    (user <- findOne (signup_email req) ;;
     match user with
     | Some _ => ret (mkResponse 400 (ErrorBody "Email already exists"))
     | None =>
         user <- new_User (signup_name req) (signup_email req)
                          (signup_password req) (signup_phone req)
                          (signup_profilePicture req) ;;
         user <- save user ;;
         token <- jwt_sign (User._id (fields user)) JWT_SECRET "30d" ;;
         ret (mkResponse 201 (SignupBody "User created successfully" token))
     end)
    (fun _ => mkResponse 500 (ErrorBody "Server error")).

Definition login (email password : string) : World -> Response * World :=
  try_catch
    (user <- findOne email ;;
     match user with
     | None => ret (mkResponse 400 (ErrorBody "Invalid credentials"))
     | Some user =>
         if negb (matchPassword user password)
         then ret (mkResponse 400 (ErrorBody "Invalid credentials"))
         else
           token <- jwt_sign (User._id (fields user)) JWT_SECRET "30d" ;;
           ret (mkResponse 200 (LoginBody token))
     end)
    (fun _ => mkResponse 500 (ErrorBody "Server error")).

(** [jwt.sign({ id }, process.env.JWT_SECRET, { expiresIn })] with the
    variable as the environment gives it: the library throws when the key
    is unset or empty. *)
Definition jwt_sign_env (id : nat) (secret : option string)
           (expiresIn : string) : M Jwt.Token :=
  match secret with
  | Some key =>
      if String.eqb key ""
      then throw "secretOrPrivateKey must have a value"
      else jwt_sign id key expiresIn
  | None => throw "secretOrPrivateKey must have a value"
  end.

(** [signup] with [process.env.JWT_SECRET] as the environment gives it,
    [None] when the variable is unset. *)
Definition signup_env (env_JWT_SECRET : option string) (req : SignupRequest)
  : World -> Response * World :=
  try_catch
    (user <- findOne (signup_email req) ;;
     match user with
     | Some _ => ret (mkResponse 400 (ErrorBody "Email already exists"))
     | None =>
         user <- new_User (signup_name req) (signup_email req)
                          (signup_password req) (signup_phone req)
                          (signup_profilePicture req) ;;
         user <- save user ;;
         token <- jwt_sign_env (User._id (fields user)) env_JWT_SECRET
                               "30d" ;;
         ret (mkResponse 201 (SignupBody "User created successfully" token))
     end)
    (fun _ => mkResponse 500 (ErrorBody "Server error")).

(** The key the environment gives can sign. *)
Definition usable (env_JWT_SECRET : option string) : bool :=
  match env_JWT_SECRET with
  | Some key => negb (String.eqb key "")
  | None => false
  end.

(** ** controllers/profileController.js *)

(** The plain object of a document, as it is serialised: the optional
    fields appear only when they are set. *)
Definition optional_field (key : string) (v : option string)
  : list (string * FieldValue) :=
  match v with
  | Some s => [(key, VStr s)]
  | None => []
  end.

Definition toObject (u : User.t) : list (string * FieldValue) :=
  [("_id", VId (User._id u));
   ("name", VStr (User.name u));
   ("email", VStr (User.email u));
   ("password", VStr (User.password u))]
  ++ optional_field "phone" (User.phone u)
  ++ optional_field "profilePicture" (User.profilePicture u).

(** [.select('-key')]: the projection that leaves one field out. *)
Definition select_without (key : string) (o : list (string * FieldValue))
  : list (string * FieldValue) :=
  filter (fun kv => negb (String.eqb (fst kv) key)) o.

(** The value of a field of an object, if the field is there. *)
Definition field (key : string) (o : list (string * FieldValue))
  : option FieldValue :=
  option_map snd (find (fun kv => String.eqb (fst kv) key) o).

Definition getProfile (req_user_id : nat) : World -> Response * World :=
  try_catch
    (user <- findById req_user_id ;;
     ret (mkResponse 200
            (DocBody
               (option_map
                  (fun d => select_without "password" (toObject (fields d)))
                  user))))
    (fun _ => mkResponse 500 (ErrorBody "Server error")).

(** The truth value of a body field in a condition: a field that is
    missing and the empty string are both false. *)
Definition truthy (v : option string) : bool :=
  match v with
  | Some s => negb (String.eqb s "")
  | None => false
  end.

Definition value (v : option string) : string :=
  match v with
  | Some s => s
  | None => ""
  end.

(** Lines 38 to 41 of the handler: the four guarded assignments. *)
Definition assignments (req : UpdateRequest) (user : Doc) : Doc :=
  let user := if truthy (update_name req)
              then assign_name user (value (update_name req)) else user in
  let user := if truthy (update_phone req)
              then assign_phone user (value (update_phone req)) else user in
  let user := if truthy (update_profilePicture req)
              then assign_profilePicture user
                     (value (update_profilePicture req))
              else user in
  if truthy (update_password req)
  then assign_password user (value (update_password req))
  else user.

(** Lines 38 to 45 of the handler: the assignments, the save and the
    answer. *)
Definition update_rest (req : UpdateRequest) (user : Doc) : M Response :=
  let user := assignments req user in
  save user ;;;
  ret (mkResponse 200 (MessageBody "Profile updated successfully")).

Definition updateProfile (req_user_id : nat) (req : UpdateRequest)
  : World -> Response * World :=
  try_catch
    (user <- findById req_user_id ;;
     match user with
     | None => ret (mkResponse 404 (ErrorBody "User not found"))
     | Some user =>
         if truthy (update_email req)
            && negb (String.eqb (value (update_email req))
                                (User.email (fields user)))
         then
           existingUser <- findOne (value (update_email req)) ;;
           match existingUser with
           | Some _ =>
               ret (mkResponse 400 (ErrorBody "Email already exists"))
           | None =>
               update_rest req
                 (assign_email user (value (update_email req)))
           end
         else update_rest req user
     end)
    (fun _ => mkResponse 500 (ErrorBody "Unable to update profile")).

(** The stored user with a given identifier, read off the world without
    a round trip. *)
Definition stored (id : nat) (w : World) : option User.t :=
  find (fun u => Nat.eqb (User._id u) id) (users w).

Definition holder (email : string) (w : World) : option User.t :=
  find (fun u => String.eqb (User.email u) email) (users w).

(** No store operation of the coming [n] fails. *)
Definition healthy (n : nat) (w : World) : Prop :=
  forall k, k < n -> nth k (faults w) false = false.

(** ** Auxiliary notions for the statements *)

(** The world after a write of the users [us]. *)
Definition written (us : list User.t) (op : StoreOp) (w : World) : World :=
  mkWorld us (tl (faults w)) (op :: oplog w) (next_id w) (now w).

(** The document a signup builds and stores. *)
Definition signed_up (req : SignupRequest) (w : World) : User.t :=
  User.mk (next_id w) (signup_name req) (signup_email req)
          (hash (signup_password req))
          (signup_phone req) (signup_profilePicture req).

Definition before_hash (req : SignupRequest) (w : World) : User.t :=
  User.mk (next_id w) (signup_name req) (signup_email req)
          (signup_password req)
          (signup_phone req) (signup_profilePicture req).

(** The token a signup or a login issues for [id] in the world [w]. *)
Definition issued (id : nat) (w : World) : Jwt.Token :=
  let c := Jwt.mkClaims id (now w) (now w + 2592000)%N in
  Jwt.mkToken c (hmac JWT_SECRET c).

(** The document an update stores, given the document it loaded and
    patched. *)
Definition saved (req : UpdateRequest) (d : Doc) : User.t :=
  fields (pre_save (assignments req d)).

Definition update_failed : Response :=
  mkResponse 500 (ErrorBody "Unable to update profile").

Definition update_done : Response :=
  mkResponse 200 (MessageBody "Profile updated successfully").

(** The email of the body is a change: it is given, not empty, and not
    the stored one (line 30). *)
Definition changes_email (req : UpdateRequest) (u : User.t) : bool :=
  truthy (update_email req)
  && negb (String.eqb (value (update_email req)) (User.email u)).

Definition duplicate_email : Response :=
  mkResponse 400 (ErrorBody "Email already exists").

(** The rule one field of an update follows: a field that is in the body
    and is not the empty string is applied; a field that is not in the
    body, or is the empty string, leaves the stored value. *)
Definition field_rule {A : Type} (given : option string)
           (applied : string -> A) (before after : A) : Prop :=
  match given with
  | Some s => if String.eqb s "" then after = before else after = applied s
  | None => after = before
  end.

(** A body that holds a name and nothing else. *)
Definition name_only (X : string) : UpdateRequest :=
  mkUpdateRequest (Some X) None None None None.

(** The operations a handler issued, most recent first. *)
Definition issued_by (out : Response * World) (w : World)
           (ops : list StoreOp) : Prop :=
  oplog (snd out) = (ops ++ oplog w)%list.

(** The store is consistent: no two stored users share an email or an
    identifier, and every stored identifier was drawn from the counter. *)
Definition consistent (w : World) : Prop :=
  NoDup (map User.email (users w))
  /\ NoDup (map User._id (users w))
  /\ Forall (fun u => User._id u < next_id w) (users w).

(** The world a signup's [new User(...)] leaves: the lookup was issued and
    an identifier was drawn. *)
Definition drawn (req : SignupRequest) (w : World) : World :=
  mkWorld (users w) (tl (faults w))
          (OpFindOne (signup_email req) :: oplog w)
          (S (next_id w)) (now w).

Definition server_error : Response :=
  mkResponse 500 (ErrorBody "Server error").

Definition invalid_credentials : Response :=
  mkResponse 400 (ErrorBody "Invalid credentials").

(** The document an update patches: the loaded one, or the loaded one with
    the new email. *)
Definition patched (req : UpdateRequest) (u : User.t) : Doc :=
  if changes_email req u
  then assign_email (loaded u) (value (update_email req))
  else loaded u.

(** The token [jwt.sign] makes for [id] under [key] in the world [w]. *)
Definition issued_under (key : string) (id : nat) (w : World) : Jwt.Token :=
  let c := Jwt.mkClaims id (now w) (now w + 2592000)%N in
  Jwt.mkToken c (hmac key c).

(** ** The claims on updates, in the words of the specification *)

(** "Only fields present are applied; absent fields are left untouched":
    on an update that is answered 200, every field that is in the body has
    the body's value afterwards (the password: its hash), and every field
    that is not in the body has its stored value. *)
Definition applies_every_present_field : Prop :=
  forall (id : nat) (req : UpdateRequest) (w : World) (u : User.t),
    stored id w = Some u ->
    let out := updateProfile id req w in
    status (fst out) = 200 ->
    exists u',
      stored id (snd out) = Some u'
      /\ (forall s, update_name req = Some s -> User.name u' = s)
      /\ (forall s, update_email req = Some s -> User.email u' = s)
      /\ (forall s, update_phone req = Some s -> User.phone u' = Some s)
      /\ (forall s, update_profilePicture req = Some s ->
                    User.profilePicture u' = Some s)
      /\ (forall s, update_password req = Some s ->
                    User.password u' = hash s)
      /\ (update_name req = None -> User.name u' = User.name u)
      /\ (update_email req = None -> User.email u' = User.email u)
      /\ (update_phone req = None -> User.phone u' = User.phone u)
      /\ (update_profilePicture req = None ->
          User.profilePicture u' = User.profilePicture u)
      /\ (update_password req = None ->
          User.password u' = User.password u).

(** "If email provided and different from current: re-runs the uniqueness
    check; conflict fails with DuplicateResource", otherwise the new email
    is applied: with every store operation working and every document
    valid. *)
Definition rechecks_every_different_email : Prop :=
  forall (id : nat) (req : UpdateRequest) (w : World) (u : User.t)
         (e : string),
    stored id w = Some u ->
    update_email req = Some e ->
    e <> User.email u ->
    faults w = [] ->
    (forall d, validate d = true) ->
    let out := updateProfile id req w in
    In (OpFindOne e) (oplog (snd out))
    /\ (holder e w <> None ->
        fst out = duplicate_email /\ users (snd out) = users w)
    /\ (holder e w = None ->
        exists u', stored id (snd out) = Some u' /\ User.email u' = e).

(** ** How the store operations run *)

Lemma store_op_run (op : StoreOp) (w : World) :
  store_op op w =
  if next_fails w then (Throw "store error", tick op w)
  else (Ok tt, tick op w).
Proof. reflexivity. Qed.

Lemma findOne_run (e : string) (w : World) :
  findOne e w =
  if next_fails w then (Throw "store error", tick (OpFindOne e) w)
  else (Ok (option_map loaded (holder e w)), tick (OpFindOne e) w).
Proof.
  unfold findOne, bind. rewrite store_op_run.
  destruct (next_fails w); reflexivity.
Qed.

Lemma findById_run (id : nat) (w : World) :
  findById id w =
  if next_fails w then (Throw "store error", tick (OpFindById id) w)
  else (Ok (option_map loaded (stored id w)), tick (OpFindById id) w).
Proof.
  unfold findById, bind. rewrite store_op_run.
  destruct (next_fails w); reflexivity.
Qed.

(** A lookup that came back did not fail, and it found what the store
    holds. *)
Lemma findOne_found (e : string) (w : World) (r : option Doc) :
  fst (findOne e w) = Ok r ->
  next_fails w = false /\ r = option_map loaded (holder e w).
Proof.
  rewrite findOne_run. destruct (next_fails w); simpl; intros H.
  - discriminate.
  - inversion H. auto.
Qed.

Lemma findById_found (id : nat) (w : World) (r : option Doc) :
  fst (findById id w) = Ok r ->
  next_fails w = false /\ r = option_map loaded (stored id w).
Proof.
  rewrite findById_run. destruct (next_fails w); simpl; intros H.
  - discriminate.
  - inversion H. auto.
Qed.

Lemma timespan_30d : timespan "30d" = Some 2592000%N.
Proof. reflexivity. Qed.

Lemma jwt_sign_30d (id : nat) (w : World) :
  jwt_sign id JWT_SECRET "30d" w =
  (Ok (Jwt.mkToken
         (Jwt.mkClaims id (now w) (now w + 2592000)%N)
         (hmac JWT_SECRET
               (Jwt.mkClaims id (now w) (now w + 2592000)%N))), w).
Proof. unfold jwt_sign. rewrite timespan_30d. reflexivity. Qed.

Lemma save_new_run (d : Doc) (w : World) :
  isNew d = true ->
  validate (fields d) = true ->
  next_fails w = false ->
  save d w =
  (Ok (mkDoc (fields (pre_save d)) false false),
   written (users w ++ [fields (pre_save d)])
           (OpSave (User._id (fields (pre_save d)))) w).
Proof.
  intros Hnew Hvalid Hok. unfold save. rewrite Hvalid. cbn [negb].
  assert (Hnew' : isNew (pre_save d) = true).
  { unfold pre_save. destruct (passwordModified d); assumption. }
  unfold bind. rewrite store_op_run, Hok. cbn. rewrite Hnew'. reflexivity.
Qed.

Lemma save_existing_run (d : Doc) (w : World) (us' : list User.t) :
  isNew d = false ->
  validate (fields d) = true ->
  next_fails w = false ->
  replace (fields (pre_save d)) (users w) = Some us' ->
  save d w =
  (Ok (mkDoc (fields (pre_save d)) false false),
   written us' (OpSave (User._id (fields (pre_save d)))) w).
Proof.
  intros Hnew Hvalid Hok Hrep. unfold save. rewrite Hvalid. cbn [negb].
  assert (Hnew' : isNew (pre_save d) = false).
  { unfold pre_save. destruct (passwordModified d); assumption. }
  unfold bind. rewrite store_op_run, Hok. cbn. rewrite Hnew'.
  rewrite Hrep. reflexivity.
Qed.

(** A save that throws leaves the stored users as they were. *)
Lemma save_throw_users (d : Doc) (w w' : World) (e : string) :
  save d w = (Throw e, w') -> users w' = users w.
Proof.
  unfold save. destruct (validate (fields d)); cbn [negb].
  - unfold bind. rewrite store_op_run.
    destruct (next_fails w); cbn.
    + intros H. inversion H. reflexivity.
    + destruct (isNew (pre_save d)); cbn.
      * discriminate.
      * destruct (replace (fields (pre_save d)) (users w)); cbn.
        -- discriminate.
        -- intros H. inversion H. reflexivity.
  - unfold throw. intros H. inversion H. reflexivity.
Qed.

Lemma next_fails_tick_nth (op : StoreOp) (w : World) :
  nth 1 (faults w) false = false -> next_fails (tick op w) = false.
Proof.
  unfold next_fails, tick. cbn.
  destruct (faults w) as [| b0 [| b1 l]]; cbn; try reflexivity.
  intros ->. reflexivity.
Qed.

(** ** Login *)

(** C1. A login whose lookup finds no user and a login whose lookup finds
    a user whose stored hash does not match the supplied secret are
    answered alike: status 400 and the error 'Invalid credentials', for
    any two stores, emails and secrets. *)
Theorem login_failures_indistinguishable
        (w1 w2 : World) (email1 password1 email2 password2 : string)
        (user : Doc) :
  fst (findOne email1 w1) = Ok None ->
  fst (findOne email2 w2) = Ok (Some user) ->
  matchPassword user password2 = false ->
  fst (login email1 password1 w1) = fst (login email2 password2 w2)
  /\ fst (login email1 password1 w1)
     = mkResponse 400 (ErrorBody "Invalid credentials").
Proof.
  intros Habsent Hfound Hmismatch.
  assert (H1 : fst (login email1 password1 w1)
               = mkResponse 400 (ErrorBody "Invalid credentials")).
  { unfold login, try_catch, bind.
    destruct (findOne email1 w1) as [[r|e] w']; simpl in Habsent;
      [| discriminate].
    inversion Habsent. reflexivity. }
  assert (H2 : fst (login email2 password2 w2)
               = mkResponse 400 (ErrorBody "Invalid credentials")).
  { unfold login, try_catch, bind.
    destruct (findOne email2 w2) as [[r|e] w']; simpl in Hfound;
      [| discriminate].
    inversion Hfound. rewrite Hmismatch. reflexivity. }
  rewrite H1, H2. split; reflexivity.
Qed.

(** ** Signup *)

(** C2. A signup whose lookup finds a user with the supplied email is
    answered 400 with 'Email already exists', and the stored users are
    what they were: none is added and none is changed. *)
Theorem signup_duplicate_rejected
        (req : SignupRequest) (w : World) (existing : Doc) :
  fst (findOne (signup_email req) w) = Ok (Some existing) ->
  fst (signup req w) = mkResponse 400 (ErrorBody "Email already exists")
  /\ users (snd (signup req w)) = users w
  /\ next_id (snd (signup req w)) = next_id w.
Proof.
  intros Hfound.
  destruct (findOne_found _ _ _ Hfound) as [Hok Hr].
  unfold signup, try_catch, bind.
  rewrite findOne_run, Hok.
  destruct (holder (signup_email req) w); simpl in *.
  - repeat split.
  - discriminate.
Qed.

Lemma signup_fresh_run (req : SignupRequest) (w : World) :
  fst (findOne (signup_email req) w) = Ok None ->
  validate (before_hash req w) = true ->
  nth 1 (faults w) false = false ->
  signup req w =
  (mkResponse 201
     (SignupBody "User created successfully" (issued (next_id w) w)),
   written (users w ++ [signed_up req w]) (OpSave (next_id w))
     (mkWorld (users w) (tl (faults w))
              (OpFindOne (signup_email req) :: oplog w)
              (S (next_id w)) (now w))).
Proof.
  intros Habsent Hvalid Hwrite.
  destruct (findOne_found _ _ _ Habsent) as [Hok Hr].
  destruct (holder (signup_email req) w) eqn:Hh; [discriminate |].
  unfold signup, try_catch, bind at 1.
  rewrite findOne_run, Hok, Hh. cbn [option_map].
  unfold bind at 1. unfold new_User, bind at 1, fresh_id, ret at 1.
  unfold bind at 1.
  rewrite save_new_run;
    [| reflexivity | exact Hvalid
     | apply (next_fails_tick_nth (OpFindOne (signup_email req)) w Hwrite)].
  unfold bind. rewrite jwt_sign_30d. reflexivity.
Qed.


(** ** Profile read *)

Lemma toObject_password_removed (u : User.t) :
  field "password" (select_without "password" (toObject u)) = None.
Proof.
  unfold toObject, optional_field.
  destruct (User.phone u), (User.profilePicture u); reflexivity.
Qed.

Lemma select_without_other (key k : string)
      (o : list (string * FieldValue)) :
  k <> key -> field k (select_without key o) = field k o.
Proof.
  intros Hne. unfold field, select_without.
  induction o as [| [k' v] o IH]; simpl; [reflexivity |].
  destruct (String.eqb_spec k' key) as [-> | Hk]; simpl.
  - destruct (String.eqb_spec key k) as [Heq | _].
    + symmetry in Heq. contradiction.
    + exact IH.
  - destruct (String.eqb k' k); [reflexivity | exact IH].
Qed.

Lemma field_in_keys (k : string) (o : list (string * FieldValue)) :
  field k o <> None -> In k (map fst o).
Proof.
  unfold field. induction o as [| [k' v] o IH]; cbn [find map fst].
  - intros H. exfalso. apply H. reflexivity.
  - destruct (String.eqb_spec k' k) as [-> | _].
    + intros _. left. reflexivity.
    + intros H. right. apply IH. exact H.
Qed.

(** The body of a profile read, field by field: the identifier, the name
    and the email of the user, the phone and the picture when they are
    set, and no other key. *)
Lemma view_of_user (u : User.t) :
  let view := select_without "password" (toObject u) in
  field "_id" view = Some (VId (User._id u))
  /\ field "name" view = Some (VStr (User.name u))
  /\ field "email" view = Some (VStr (User.email u))
  /\ field "phone" view = option_map VStr (User.phone u)
  /\ field "profilePicture" view
     = option_map VStr (User.profilePicture u)
  /\ (forall k, field k view <> None ->
                In k ["_id"; "name"; "email"; "phone"; "profilePicture"])
  /\ NoDup (map fst view).
Proof using.
  destruct u as [i n e pw ph pic]. cbv zeta.
  assert (Hkeys : forall (k : string) (l : list string),
             NoDup l -> ~ In k l -> NoDup (k :: l)).
  { intros k l Hl Hk. constructor; assumption. }
  destruct ph as [ph |], pic as [pic |];
    (split; [reflexivity |]); (split; [reflexivity |]);
    (split; [reflexivity |]); (split; [reflexivity |]);
    (split; [reflexivity |]);
    (split;
     [ intros k Hk; apply field_in_keys in Hk; cbn in Hk; cbn;
       repeat (destruct Hk as [<- | Hk]; [auto 10 |]); destruct Hk
     | cbn;
       repeat (apply Hkeys;
               [| cbn; intros Hin;
                  repeat (destruct Hin as [Hin | Hin];
                          [discriminate Hin |]);
                  destruct Hin]);
       constructor ]).
Qed.

(** C7. A profile read whose identifier resolves to a stored user is
    answered 200 with that user's document without its [password] field:
    the field is not in the body; the stored identifier, name and email
    are in the body, the stored phone and picture are in it whenever they
    are set, each with its stored value and each once; the body holds no
    other key, and the store is what it was. *)
Theorem getProfile_projects_password_away
        (id : nat) (w : World) (user : Doc) :
  fst (findById id w) = Ok (Some user) ->
  exists view : list (string * FieldValue),
    fst (getProfile id w) = mkResponse 200 (DocBody (Some view))
    /\ field "password" view = None
    /\ (forall k, k <> "password" ->
                  field k view = field k (toObject (fields user)))
    /\ stored id w = Some (fields user)
    /\ users (snd (getProfile id w)) = users w
    /\ field "_id" view = Some (VId (User._id (fields user)))
    /\ field "name" view = Some (VStr (User.name (fields user)))
    /\ field "email" view = Some (VStr (User.email (fields user)))
    /\ field "phone" view = option_map VStr (User.phone (fields user))
    /\ field "profilePicture" view
       = option_map VStr (User.profilePicture (fields user))
    /\ (forall k, field k view <> None ->
                  In k ["_id"; "name"; "email"; "phone"; "profilePicture"])
    /\ NoDup (map fst view).
Proof.
  intros Hfound.
  destruct (findById_found _ _ _ Hfound) as [Hok Hr].
  unfold getProfile, try_catch, bind.
  rewrite findById_run, Hok.
  destruct (stored id w) as [u |] eqn:Hs; cbn [option_map] in Hr;
    [| discriminate].
  inversion Hr; subst user.
  unfold ret. cbn [option_map fst snd fields loaded users tick].
  eexists. split; [reflexivity |].
  split; [apply toObject_password_removed |].
  split; [intros k Hk; apply select_without_other; exact Hk |].
  split; [reflexivity |]. split; [reflexivity |].
  apply view_of_user.
Qed.

(** C10. A profile read whose identifier resolves to no stored user is
    answered 200 with the body [null]. *)
Theorem getProfile_missing_user_null (id : nat) (w : World) :
  fst (findById id w) = Ok None ->
  fst (getProfile id w) = mkResponse 200 (DocBody None).
Proof.
  intros Hnone.
  destruct (findById_found _ _ _ Hnone) as [Hok Hr].
  unfold getProfile, try_catch, bind.
  rewrite findById_run, Hok.
  destruct (stored id w); simpl in *; [discriminate | reflexivity].
Qed.

(** ** Profile update *)

Lemma stored_id (id : nat) (w : World) (u : User.t) :
  stored id w = Some u -> User._id u = id.
Proof.
  unfold stored. intros H. apply find_some in H. destruct H as [_ H].
  apply Nat.eqb_eq. exact H.
Qed.

Lemma replace_found (u : User.t) (us : list User.t) (u0 : User.t) :
  find (fun v => Nat.eqb (User._id v) (User._id u)) us = Some u0 ->
  exists us',
    replace u us = Some us'
    /\ find (fun v => Nat.eqb (User._id v) (User._id u)) us' = Some u.
Proof.
  induction us as [| v rest IH]; cbn; [discriminate |].
  destruct (Nat.eqb (User._id v) (User._id u)) eqn:Hv.
  - intros _. exists (u :: rest). split; [reflexivity |].
    cbn. rewrite Nat.eqb_refl. reflexivity.
  - intros H. destruct (IH H) as [us' [Hrep Hfind]].
    exists (v :: us'). rewrite Hrep. split; [reflexivity |].
    cbn. rewrite Hv. exact Hfind.
Qed.

Lemma assignments_id (req : UpdateRequest) (d : Doc) :
  User._id (fields (assignments req d)) = User._id (fields d)
  /\ isNew (assignments req d) = isNew d.
Proof.
  unfold assignments.
  destruct (truthy (update_name req)), (truthy (update_phone req)),
    (truthy (update_profilePicture req)), (truthy (update_password req));
    split; reflexivity.
Qed.

Lemma pre_save_id (d : Doc) :
  User._id (fields (pre_save d)) = User._id (fields d).
Proof. unfold pre_save. destruct (passwordModified d); reflexivity. Qed.

(** What the tail of the handler does on a loaded document: it answers
    200 and the store holds the patched document, or it answers 500 and
    the stored users are what they were. *)
Lemma update_rest_outcome (req : UpdateRequest) (d : Doc) (w : World)
      (id : nat) (u0 : User.t) :
  isNew d = false ->
  User._id (fields d) = id ->
  stored id w = Some u0 ->
  let out := try_catch (update_rest req d) (fun _ => update_failed) w in
  (validate (fields (assignments req d)) = true
   /\ next_fails w = false
   /\ fst out = update_done
   /\ stored id (snd out) = Some (saved req d)
   /\ replace (saved req d) (users w) = Some (users (snd out))
   /\ oplog (snd out) = OpSave id :: oplog w
   /\ faults (snd out) = tl (faults w))
  \/ ((validate (fields (assignments req d)) = false
       \/ next_fails w = true)
      /\ fst out = update_failed
      /\ users (snd out) = users w).
Proof.
  intros Hnew Hid Hst out. subst out.
  destruct (assignments_id req d) as [Haid Hanew].
  unfold update_rest, try_catch, bind.
  destruct (validate (fields (assignments req d))) eqn:Hv.
  - destruct (next_fails w) eqn:Hnf.
    + right. split; [right; reflexivity |].
      unfold save. rewrite Hv. cbn [negb]. unfold bind.
      rewrite store_op_run, Hnf. split; reflexivity.
    + left.
      assert (Hfind : find (fun v => Nat.eqb (User._id v)
                              (User._id (fields (pre_save
                                                   (assignments req d)))))
                           (users w) = Some u0).
      { rewrite pre_save_id, Haid, Hid. exact Hst. }
      destruct (replace_found _ _ _ Hfind) as [us' [Hrep Hfound]].
      rewrite (save_existing_run _ w us');
        [| congruence | exact Hv | exact Hnf | exact Hrep].
      unfold ret. cbn [fst snd]. repeat split.
      * unfold stored, written. cbn [users].
        rewrite pre_save_id, Haid, Hid in Hfound. exact Hfound.
      * exact Hrep.
      * unfold written. cbn [oplog].
        rewrite pre_save_id, Haid, Hid. reflexivity.
  - right. split; [left; reflexivity |].
    unfold save. rewrite Hv. cbn [negb]. unfold throw.
    split; reflexivity.
Qed.

Lemma next_fails_nth (w : World) :
  next_fails w = nth 0 (faults w) false.
Proof.
  unfold next_fails. destruct (faults w) as [| [|] l]; reflexivity.
Qed.

Lemma nth_tl (k : nat) (l : list bool) :
  nth k (tl l) false = nth (S k) l false.
Proof. destruct l; [destruct k |]; reflexivity. Qed.

Lemma healthy_next (n : nat) (op : StoreOp) (w : World) :
  healthy (S n) w -> next_fails w = false /\ healthy n (tick op w).
Proof.
  unfold healthy, next_fails, tick. intros H. split.
  - specialize (H 0 (Nat.lt_0_succ n)).
    destruct (faults w) as [| [|] l]; cbn in *; congruence.
  - intros k Hk. specialize (H (S k)). cbn [faults].
    destruct (faults w) as [| b l]; cbn in *.
    + destruct k; reflexivity.
    + apply H. lia.
Qed.

Lemma updateProfile_keep (id : nat) (req : UpdateRequest) (w : World)
      (u : User.t) :
  stored id w = Some u ->
  next_fails w = false ->
  changes_email req u = false ->
  updateProfile id req w =
  try_catch (update_rest req (loaded u)) (fun _ => update_failed)
            (tick (OpFindById id) w).
Proof.
  intros Hst Hok Hch. unfold updateProfile, try_catch, bind at 1.
  rewrite findById_run, Hok, Hst. cbn [option_map].
  unfold changes_email in Hch. cbn [fields loaded]. rewrite Hch.
  reflexivity.
Qed.

Lemma updateProfile_change (id : nat) (req : UpdateRequest) (w : World)
      (u : User.t) :
  stored id w = Some u ->
  next_fails w = false ->
  changes_email req u = true ->
  let e := value (update_email req) in
  let w1 := tick (OpFindById id) w in
  updateProfile id req w =
  if next_fails w1 then (update_failed, tick (OpFindOne e) w1)
  else
    match holder e w with
    | Some _ => (duplicate_email, tick (OpFindOne e) w1)
    | None =>
        try_catch (update_rest req (assign_email (loaded u) e))
                  (fun _ => update_failed) (tick (OpFindOne e) w1)
    end.
Proof.
  intros Hst Hok Hch e w1. unfold updateProfile, try_catch, bind at 1.
  rewrite findById_run, Hok, Hst. cbn [option_map].
  unfold changes_email in Hch. cbn [fields loaded]. rewrite Hch.
  unfold bind at 1. rewrite findOne_run. fold e. fold w1.
  destruct (next_fails w1); [reflexivity |].
  replace (holder e w1) with (holder e w) by reflexivity.
  destruct (holder e w); reflexivity.
Qed.

(** The fields of the document an update stores. *)
Lemma saved_fields (req : UpdateRequest) (d : Doc) :
  passwordModified d = false ->
  User._id (saved req d) = User._id (fields d)
  /\ User.name (saved req d)
     = (if truthy (update_name req) then value (update_name req)
        else User.name (fields d))
  /\ User.email (saved req d) = User.email (fields d)
  /\ User.phone (saved req d)
     = (if truthy (update_phone req) then Some (value (update_phone req))
        else User.phone (fields d))
  /\ User.profilePicture (saved req d)
     = (if truthy (update_profilePicture req)
        then Some (value (update_profilePicture req))
        else User.profilePicture (fields d))
  /\ User.password (saved req d)
     = (if truthy (update_password req)
        then hash (value (update_password req))
        else User.password (fields d)).
Proof.
  intros Hmod. unfold saved, assignments, pre_save.
  destruct d as [f n m]. cbn in Hmod. subst m.
  destruct (truthy (update_name req)), (truthy (update_phone req)),
    (truthy (update_profilePicture req)), (truthy (update_password req));
    cbn; repeat split.
Qed.

Lemma field_rule_truthy {A : Type} (given : option string)
      (applied : string -> A) (before after : A) :
  after = (if truthy given then applied (value given) else before) ->
  field_rule given applied before after.
Proof.
  unfold field_rule, truthy, value. destruct given as [s |]; [| auto].
  destruct (String.eqb s ""); auto.
Qed.

(** Every outcome of an update on a stored user: done with the patched
    document stored, or refused or failed with the stored users as they
    were. *)
Lemma updateProfile_outcome (id : nat) (req : UpdateRequest) (w : World)
      (u : User.t) :
  stored id w = Some u ->
  let out := updateProfile id req w in
  (fst out = update_done
   /\ stored id (snd out)
      = Some (saved req (if changes_email req u
                         then assign_email (loaded u)
                                           (value (update_email req))
                         else loaded u)))
  \/ (status (fst out) <> 200 /\ users (snd out) = users w).
Proof.
  intros Hst out. subst out.
  destruct (next_fails w) eqn:Hok.
  { right. unfold updateProfile, try_catch, bind.
    rewrite findById_run, Hok. cbn. split; [discriminate | reflexivity]. }
  destruct (changes_email req u) eqn:Hch.
  - rewrite (updateProfile_change id req w u Hst Hok Hch).
    destruct (next_fails (tick (OpFindById id) w)).
    { right. cbn. split; [discriminate | reflexivity]. }
    destruct (holder (value (update_email req)) w).
    { right. cbn. split; [discriminate | reflexivity]. }
    destruct (update_rest_outcome req
                (assign_email (loaded u) (value (update_email req)))
                (tick (OpFindOne (value (update_email req)))
                      (tick (OpFindById id) w))
                id u eq_refl (stored_id _ _ _ Hst) Hst)
      as [(_ & _ & Hr & Hs & _) | (_ & Hr & Hu)].
    + left. split; assumption.
    + right. rewrite Hr, Hu. split; [discriminate | reflexivity].
  - rewrite (updateProfile_keep id req w u Hst Hok Hch).
    destruct (update_rest_outcome req (loaded u)
                (tick (OpFindById id) w)
                id u eq_refl (stored_id _ _ _ Hst) Hst)
      as [(_ & _ & Hr & Hs & _) | (_ & Hr & Hu)].
    + left. split; assumption.
    + right. rewrite Hr, Hu. split; [discriminate | reflexivity].
Qed.

(** C4, as amended.  On an update that is answered 200, each of name,
    email, phone, profilePicture and password follows [field_rule]: a
    field that is in the body and is not the empty string is applied
    (the password as its hash), every other field keeps its stored
    value.  An update that is not answered 200 changes no stored user. *)
Theorem updateProfile_applies_provided_fields
        (id : nat) (req : UpdateRequest) (w : World) (u : User.t) :
  stored id w = Some u ->
  let out := updateProfile id req w in
  (status (fst out) = 200 ->
   exists u',
     stored id (snd out) = Some u'
     /\ field_rule (update_name req) (fun s => s)
                   (User.name u) (User.name u')
     /\ field_rule (update_email req) (fun s => s)
                   (User.email u) (User.email u')
     /\ field_rule (update_phone req) Some
                   (User.phone u) (User.phone u')
     /\ field_rule (update_profilePicture req) Some
                   (User.profilePicture u) (User.profilePicture u')
     /\ field_rule (update_password req) hash
                   (User.password u) (User.password u'))
  /\ (status (fst out) <> 200 -> users (snd out) = users w).
Proof.
  intros Hst out.
  destruct (updateProfile_outcome id req w u Hst) as [[Hr Hs] | [Hr Hu]];
    fold out in Hr, Hs || fold out in Hr, Hu.
  - split; [| rewrite Hr; cbn; congruence].
    intros _. eexists. split; [exact Hs |].
    set (d := if changes_email req u
              then assign_email (loaded u) (value (update_email req))
              else loaded u).
    assert (Hmod : passwordModified d = false).
    { unfold d. destruct (changes_email req u); reflexivity. }
    destruct (saved_fields req d Hmod)
      as (_ & Hname & Hemail & Hphone & Hpic & Hpw).
    assert (Hd : User.name (fields d) = User.name u
                 /\ User.phone (fields d) = User.phone u
                 /\ User.profilePicture (fields d) = User.profilePicture u
                 /\ User.password (fields d) = User.password u).
    { unfold d. destruct (changes_email req u); repeat split. }
    destruct Hd as (Hn & Hp & Hpp & Hpass).
    rewrite Hn in Hname. rewrite Hp in Hphone. rewrite Hpp in Hpic.
    rewrite Hpass in Hpw.
    repeat split; try (apply field_rule_truthy; assumption).
    apply field_rule_truthy. rewrite Hemail. unfold d, changes_email.
    destruct (truthy (update_email req)); cbn [andb].
    + destruct (String.eqb_spec (value (update_email req)) (User.email u))
        as [He | He]; cbn [negb]; [symmetry; exact He | reflexivity].
    + reflexivity.
  - split; [intros H; contradiction | intros _; exact Hu].
Qed.

Lemma replace_same (u : User.t) (us : list User.t) :
  find (fun v => Nat.eqb (User._id v) (User._id u)) us = Some u ->
  replace u us = Some us.
Proof.
  induction us as [| v rest IH]; cbn; [discriminate |].
  destruct (Nat.eqb (User._id v) (User._id u)).
  - intros H. inversion H. reflexivity.
  - intros H. rewrite (IH H). reflexivity.
Qed.

(** One update with a body that holds only a name that is not empty, on a
    stored user, with the two store operations working and the renamed
    document valid. *)
Lemma update_name_only (id : nat) (X : string) (w : World) (u : User.t) :
  X <> "" ->
  stored id w = Some u ->
  healthy 2 w ->
  validate (with_name u X) = true ->
  let out := updateProfile id (name_only X) w in
  fst out = update_done
  /\ stored id (snd out) = Some (with_name u X)
  /\ replace (with_name u X) (users w) = Some (users (snd out))
  /\ faults (snd out) = tl (tl (faults w)).
Proof.
  intros HX Hst Hh Hv out. subst out.
  destruct (healthy_next 1 (OpFindById id) w Hh) as [Hok Hh1].
  destruct (healthy_next 0 (OpSave id) _ Hh1) as [Hok1 _].
  assert (HtX : truthy (Some X) = true).
  { cbn. destruct (String.eqb_spec X ""); [contradiction | reflexivity]. }
  rewrite (updateProfile_keep id (name_only X) w u Hst Hok eq_refl).
  assert (Hsaved : saved (name_only X) (loaded u) = with_name u X).
  { unfold saved, assignments. cbn [name_only update_name update_phone
      update_profilePicture update_password]. rewrite HtX. reflexivity. }
  assert (Hassigned : fields (assignments (name_only X) (loaded u))
                      = with_name u X).
  { unfold assignments. cbn [name_only update_name update_phone
      update_profilePicture update_password]. rewrite HtX. reflexivity. }
  destruct (update_rest_outcome (name_only X) (loaded u)
              (tick (OpFindById id) w) id u eq_refl
              (stored_id _ _ _ Hst) Hst)
    as [(_ & _ & Hr & Hs & Hrep & _ & Hf) | ([Hbad | Hbad] & _)].
  - rewrite Hsaved in Hs, Hrep. rewrite Hf.
    repeat split; assumption.
  - rewrite Hassigned in Hbad. congruence.
  - congruence.
Qed.

Lemma healthy_after (n : nat) (w w' : World) :
  healthy (2 + n) w -> faults w' = tl (tl (faults w)) -> healthy n w'.
Proof.
  unfold healthy. intros H Hf k Hk. rewrite Hf.
  specialize (H (2 + k)).
  destruct (faults w) as [| b0 [| b1 l]]; cbn in *.
  - destruct k; reflexivity.
  - destruct k; reflexivity.
  - apply H. lia.
Qed.

(** Two updates in a row with a body that holds only a name that is not
    empty. *)
Lemma update_name_only_twice (id : nat) (X : string) (w : World)
      (u : User.t) :
  X <> "" ->
  stored id w = Some u ->
  healthy 4 w ->
  validate (with_name u X) = true ->
  let first := updateProfile id (name_only X) w in
  let second := updateProfile id (name_only X) (snd first) in
  fst first = update_done
  /\ fst second = update_done
  /\ stored id (snd first) = Some (with_name u X)
  /\ stored id (snd second) = Some (with_name u X)
  /\ users (snd second) = users (snd first).
Proof.
  intros HX Hst Hh Hv first second.
  assert (Hh2 : healthy 2 w).
  { intros k Hk. apply Hh. lia. }
  destruct (update_name_only id X w u HX Hst Hh2 Hv)
    as (Hr1 & Hs1 & _ & Hf1).
  fold first in Hr1, Hs1, Hf1.
  assert (Hh' : healthy 2 (snd first)).
  { apply (healthy_after 2 w); assumption. }
  assert (Hv' : validate (with_name (with_name u X) X) = true).
  { exact Hv. }
  destruct (update_name_only id X (snd first) (with_name u X)
                             HX Hs1 Hh' Hv')
    as (Hr2 & Hs2 & Hrep2 & _).
  fold second in Hr2, Hs2, Hrep2.
  repeat split; try assumption.
  assert (Hsame : replace (with_name (with_name u X) X) (users (snd first))
                  = Some (users (snd first))).
  { apply replace_same. cbn [with_name User._id].
    rewrite (stored_id _ _ _ Hst). exact Hs1. }
  rewrite Hsame in Hrep2. inversion Hrep2. reflexivity.
Qed.

(** Whatever becomes of it, an update with a body that holds only a name
    leaves the stored user in place with the email, phone, profilePicture
    and password it had. *)
Lemma update_name_only_frame (id : nat) (X : string) (w : World)
      (u : User.t) :
  stored id w = Some u ->
  exists u',
    stored id (snd (updateProfile id (name_only X) w)) = Some u'
    /\ User.email u' = User.email u
    /\ User.phone u' = User.phone u
    /\ User.profilePicture u' = User.profilePicture u
    /\ User.password u' = User.password u.
Proof.
  intros Hst.
  destruct (updateProfile_outcome id (name_only X) w u Hst)
    as [[_ Hs] | [_ Hu]].
  - eexists. split; [exact Hs |].
    assert (Hch : changes_email (name_only X) u = false) by reflexivity.
    rewrite Hch.
    destruct (saved_fields (name_only X) (loaded u) eq_refl)
      as (_ & _ & He & Hp & Hpp & Hpw).
    repeat split; assumption.
  - exists u. split; [| repeat split].
    unfold stored in *. rewrite Hu. exact Hst.
Qed.

(** C5. For a stored user and two updates in a row with the body
    [{name: "X"}]: after each call the stored email, phone, profilePicture
    and password are the ones before the first call, whatever the calls
    come to; and when the store operations of both calls work and the
    renamed document is valid, both calls are answered 200, the stored
    name is "X" after each, and the second call leaves the stored users
    as the first left them. *)
Theorem update_name_X_twice (id : nat) (w : World) (u : User.t) :
  stored id w = Some u ->
  let first := updateProfile id (name_only "X") w in
  let second := updateProfile id (name_only "X") (snd first) in
  (forall out, out = first \/ out = second ->
     exists u',
       stored id (snd out) = Some u'
       /\ User.email u' = User.email u
       /\ User.phone u' = User.phone u
       /\ User.profilePicture u' = User.profilePicture u
       /\ User.password u' = User.password u)
  /\ (healthy 4 w ->
      validate (with_name u "X") = true ->
      status (fst first) = 200
      /\ status (fst second) = 200
      /\ (forall out, out = first \/ out = second ->
            exists u', stored id (snd out) = Some u' /\ User.name u' = "X")
      /\ users (snd second) = users (snd first)).
Proof.
  intros Hst. cbv zeta. split.
  - destruct (update_name_only_frame id "X" w u Hst)
      as (u1 & Hs1 & He1 & Hp1 & Hpp1 & Hpw1).
    destruct (update_name_only_frame id "X" _ u1 Hs1)
      as (u2 & Hs2 & He2 & Hp2 & Hpp2 & Hpw2).
    intros out [-> | ->].
    + exists u1. repeat split; assumption.
    + exists u2. repeat split; congruence.
  - intros Hh Hv.
    assert (HX : "X" <> "") by discriminate.
    destruct (update_name_only_twice id "X" w u HX Hst Hh Hv)
      as (Hr1 & Hr2 & Hs1 & Hs2 & Hus).
    rewrite Hr2, Hr1. repeat split; try reflexivity; try assumption.
    intros out [-> | ->]; exists (with_name u "X");
      (split; [assumption | reflexivity]).
Qed.

(** The operations issued before an update's tail stay in the log. *)
Lemma update_rest_keeps_log (req : UpdateRequest) (d : Doc) (w : World)
      (op : StoreOp) :
  In op (oplog w) ->
  In op (oplog (snd (try_catch (update_rest req d)
                               (fun _ => update_failed) w))).
Proof.
  intros Hin. unfold update_rest, try_catch, bind, save.
  destruct (validate (fields (assignments req d))); cbn [negb].
  - unfold bind. rewrite store_op_run.
    destruct (next_fails w); cbn [snd fst].
    + right. exact Hin.
    + unfold get_users.
      destruct (isNew (pre_save (assignments req d))).
      * cbn. right. exact Hin.
      * destruct (replace (fields (pre_save (assignments req d)))
                          (users (tick _ w))); cbn; right; exact Hin.
  - cbn. exact Hin.
Qed.


(** C6, as amended.  An update whose body holds an email that is not
    empty and differs from the stored one runs the lookup by that email.
    If a user holds the email, the answer is 400 with 'Email already
    exists', no save is issued and the stored users are what they were;
    if no user holds it and the save succeeds, the answer is 200 and the
    stored email is the new one. *)
Theorem updateProfile_email_change
        (id : nat) (req : UpdateRequest) (w : World) (u : User.t)
        (e : string) :
  stored id w = Some u ->
  update_email req = Some e ->
  e <> "" ->
  e <> User.email u ->
  healthy 2 w ->
  let out := updateProfile id req w in
  In (OpFindOne e) (oplog (snd out))
  /\ (forall v, holder e w = Some v ->
        fst out = duplicate_email
        /\ users (snd out) = users w
        /\ oplog (snd out) = OpFindOne e :: OpFindById id :: oplog w)
  /\ (holder e w = None ->
      validate (fields (assignments req (assign_email (loaded u) e)))
      = true ->
      nth 2 (faults w) false = false ->
      fst out = update_done
      /\ exists u', stored id (snd out) = Some u' /\ User.email u' = e).
Proof.
  intros Hst He Hne Hdiff Hh out. subst out.
  destruct (healthy_next 1 (OpFindById id) w Hh) as [Hok Hh1].
  destruct (healthy_next 0 (OpFindOne e) _ Hh1) as [Hok1 _].
  assert (Hval : value (update_email req) = e) by (rewrite He; reflexivity).
  assert (Hch : changes_email req u = true).
  { unfold changes_email. rewrite He. cbn.
    destruct (String.eqb_spec e ""); [contradiction |].
    destruct (String.eqb_spec e (User.email u)); [contradiction |].
    reflexivity. }
  rewrite (updateProfile_change id req w u Hst Hok Hch).
  rewrite Hval, Hok1.
  pose proof (update_rest_outcome req (assign_email (loaded u) e)
                (tick (OpFindOne e) (tick (OpFindById id) w))
                id u eq_refl (stored_id _ _ _ Hst) Hst) as Hrest.
  cbv zeta in Hrest.
  destruct (holder e w) as [v |] eqn:Hholder.
  - split; [left; reflexivity |].
    split; [intros v' _; repeat split | discriminate].
  - split.
    + apply update_rest_keeps_log. left. reflexivity.
    + split; [discriminate |].
      intros _ Hv Hw.
      destruct Hrest as [(_ & _ & Hr & Hs & _) | ([Hbad | Hbad] & _)].
      * split; [exact Hr |]. eexists. split; [exact Hs |].
        destruct (saved_fields req (assign_email (loaded u) e) eq_refl)
          as (_ & _ & Hemail & _).
        rewrite Hemail. reflexivity.
      * congruence.
      * rewrite next_fails_nth in Hbad. cbn [tick faults] in Hbad.
        rewrite !nth_tl in Hbad. congruence.
Qed.

(** ** No handler repeats a store operation *)

Lemma login_issues_one_lookup (email password : string) (w : World) :
  issued_by (login email password w) w [OpFindOne email].
Proof.
  unfold issued_by, login, try_catch, bind. rewrite findOne_run.
  destruct (next_fails w); [reflexivity |].
  destruct (holder email w) as [u |]; cbn [option_map]; [| reflexivity].
  destruct (negb (matchPassword (loaded u) password)); [reflexivity |].
  rewrite jwt_sign_30d. reflexivity.
Qed.

Lemma getProfile_issues_one_lookup (id : nat) (w : World) :
  issued_by (getProfile id w) w [OpFindById id].
Proof.
  unfold issued_by, getProfile, try_catch, bind. rewrite findById_run.
  destruct (next_fails w); reflexivity.
Qed.

Lemma signup_issues_lookup_then_save (req : SignupRequest) (w : World) :
  exists ops,
    issued_by (signup req w) w ops
    /\ (ops = [OpFindOne (signup_email req)]
        \/ ops = [OpSave (next_id w); OpFindOne (signup_email req)]).
Proof.
  unfold issued_by, signup, try_catch, bind at 1. rewrite findOne_run.
  destruct (next_fails w);
    [exists [OpFindOne (signup_email req)]; split; [reflexivity | auto] |].
  destruct (holder (signup_email req) w); cbn [option_map];
    [exists [OpFindOne (signup_email req)]; split; [reflexivity | auto] |].
  unfold bind at 1. unfold new_User, bind at 1, fresh_id, ret at 1.
  unfold bind at 1. unfold save.
  cbn [fields].
  destruct (validate _); cbn [negb];
    [| exists [OpFindOne (signup_email req)]; split;
       [reflexivity | auto]].
  unfold bind at 1. unfold bind at 1. rewrite store_op_run.
  destruct (next_fails _);
    [exists [OpSave (next_id w); OpFindOne (signup_email req)]; split;
     [reflexivity | auto] |].
  exists [OpSave (next_id w); OpFindOne (signup_email req)].
  split; [| auto].
  unfold bind, get_users, set_users, ret, pre_save. cbn.
  rewrite jwt_sign_30d. reflexivity.
Qed.

Lemma updateProfile_issues_each_once (id : nat) (req : UpdateRequest)
      (w : World) :
  exists ops,
    issued_by (updateProfile id req w) w ops
    /\ NoDup ops /\ length ops <= 3.
Proof.
  unfold issued_by.
  destruct (next_fails w) eqn:Hok.
  { exists [OpFindById id]. unfold updateProfile, try_catch, bind.
    rewrite findById_run, Hok. cbn.
    repeat split; [repeat constructor; intros [] | lia]. }
  destruct (stored id w) as [u |] eqn:Hst.
  2:{ exists [OpFindById id]. unfold updateProfile, try_catch, bind.
      rewrite findById_run, Hok, Hst. cbn.
      repeat split; [repeat constructor; intros [] | lia]. }
  assert (Hrest : forall d w1,
             User._id (fields d) = id -> isNew d = false ->
             stored id w1 = Some u ->
             exists ops,
               oplog (snd (try_catch (update_rest req d)
                                     (fun _ => update_failed) w1))
               = (ops ++ oplog w1)%list
               /\ (ops = [] \/ ops = [OpSave id])).
  { intros d w1 Hid Hnew Hs1.
    destruct (assignments_id req d) as [Haid _].
    destruct (update_rest_outcome req d w1 id u Hnew Hid Hs1)
      as [(_ & _ & _ & _ & _ & Hlog & _) | (_ & _ & _)].
    - exists [OpSave id]. split; [exact Hlog | auto].
    - unfold update_rest, try_catch, bind, save.
      destruct (validate (fields (assignments req d))); cbn [negb].
      + exists [OpSave id]. split; [| auto].
        unfold bind. rewrite store_op_run.
        rewrite pre_save_id, Haid, Hid.
        destruct (next_fails w1); [reflexivity |].
        unfold get_users.
        destruct (isNew (pre_save (assignments req d))); [reflexivity |].
        destruct (replace _ _); reflexivity.
      + exists []. split; [reflexivity | auto]. }
  destruct (changes_email req u) eqn:Hch.
  - rewrite (updateProfile_change id req w u Hst Hok Hch).
    destruct (next_fails (tick (OpFindById id) w)).
    { exists [OpFindOne (value (update_email req)); OpFindById id].
      split; [reflexivity |]. split; [| cbn; lia].
      repeat constructor; cbn; intuition discriminate. }
    destruct (holder (value (update_email req)) w).
    { exists [OpFindOne (value (update_email req)); OpFindById id].
      split; [reflexivity |]. split; [| cbn; lia].
      repeat constructor; cbn; intuition discriminate. }
    destruct (Hrest (assign_email (loaded u) (value (update_email req)))
                    (tick (OpFindOne (value (update_email req)))
                          (tick (OpFindById id) w))
                    (stored_id _ _ _ Hst) eq_refl Hst)
      as (ops & Hlog & [-> | ->]); rewrite Hlog.
    + exists [OpFindOne (value (update_email req)); OpFindById id].
      split; [reflexivity |]. split; [| cbn; lia].
      repeat constructor; cbn; intuition discriminate.
    + exists [OpSave id; OpFindOne (value (update_email req));
              OpFindById id].
      split; [reflexivity |]. split; [| cbn; lia].
      repeat constructor; cbn; intuition discriminate.
  - rewrite (updateProfile_keep id req w u Hst Hok Hch).
    destruct (Hrest (loaded u) (tick (OpFindById id) w)
                    (stored_id _ _ _ Hst) eq_refl Hst)
      as (ops & Hlog & [-> | ->]); rewrite Hlog.
    + exists [OpFindById id].
      split; [reflexivity |]. split; [| cbn; lia].
      repeat constructor; cbn; intuition discriminate.
    + exists [OpSave id; OpFindById id].
      split; [reflexivity |]. split; [| cbn; lia].
      repeat constructor; cbn; intuition discriminate.
Qed.

(** ** Further properties of the handlers *)

(** *** The handlers, run *)

Lemma login_run (email password : string) (w : World) :
  login email password w =
  if next_fails w then (server_error, tick (OpFindOne email) w)
  else
    match holder email w with
    | None => (invalid_credentials, tick (OpFindOne email) w)
    | Some u =>
        if compare password (User.password u)
        then (mkResponse 200 (LoginBody (issued (User._id u) w)),
              tick (OpFindOne email) w)
        else (invalid_credentials, tick (OpFindOne email) w)
    end.
Proof.
  unfold login, try_catch, bind. rewrite findOne_run.
  destruct (next_fails w); [reflexivity |].
  destruct (holder email w) as [u |]; cbn [option_map]; [| reflexivity].
  unfold matchPassword. cbn [fields loaded].
  destruct (compare password (User.password u)); cbn [negb];
    [| reflexivity].
  rewrite jwt_sign_30d. reflexivity.
Qed.

Lemma getProfile_run (id : nat) (w : World) :
  getProfile id w =
  if next_fails w then (server_error, tick (OpFindById id) w)
  else
    (mkResponse 200
       (DocBody (option_map (fun u => select_without "password" (toObject u))
                            (stored id w))),
     tick (OpFindById id) w).
Proof.
  unfold getProfile, try_catch, bind. rewrite findById_run.
  destruct (next_fails w); [reflexivity |].
  destruct (stored id w); reflexivity.
Qed.

Lemma signup_run (req : SignupRequest) (w : World) :
  signup req w =
  if next_fails w
  then (server_error, tick (OpFindOne (signup_email req)) w)
  else
    match holder (signup_email req) w with
    | Some _ => (duplicate_email, tick (OpFindOne (signup_email req)) w)
    | None =>
        if validate (before_hash req w) then
          if next_fails (drawn req w)
          then (server_error, tick (OpSave (next_id w)) (drawn req w))
          else
            (mkResponse 201
               (SignupBody "User created successfully"
                           (issued (next_id w) w)),
             written (users w ++ [signed_up req w]) (OpSave (next_id w))
                     (drawn req w))
        else (server_error, drawn req w)
    end.
Proof.
  destruct (next_fails w) eqn:Hok.
  { unfold signup, try_catch, bind at 1. rewrite findOne_run, Hok.
    reflexivity. }
  destruct (holder (signup_email req) w) eqn:Hh.
  { unfold signup, try_catch, bind at 1. rewrite findOne_run, Hok, Hh.
    reflexivity. }
  destruct (validate (before_hash req w)) eqn:Hv.
  - destruct (next_fails (drawn req w)) eqn:Hw.
    + unfold signup, try_catch, bind at 1. rewrite findOne_run, Hok, Hh.
      cbn [option_map].
      unfold bind at 1. unfold new_User, bind at 1, fresh_id, ret at 1.
      unfold bind at 1. unfold save. cbn [fields].
      unfold before_hash in Hv. cbn [tick next_id]. rewrite Hv.
      cbn [negb]. unfold bind at 1. rewrite store_op_run.
      unfold drawn in Hw. cbn [tick users faults oplog next_id now].
      rewrite Hw. reflexivity.
    + assert (Hnth : nth 1 (faults w) false = false).
      { rewrite next_fails_nth in Hw. unfold drawn in Hw.
        cbn [faults] in Hw. rewrite nth_tl in Hw. exact Hw. }
      apply signup_fresh_run.
      * rewrite findOne_run, Hok, Hh. reflexivity.
      * exact Hv.
      * exact Hnth.
  - unfold signup, try_catch, bind at 1. rewrite findOne_run, Hok, Hh.
    cbn [option_map].
    unfold bind at 1. unfold new_User, bind at 1, fresh_id, ret at 1.
    unfold bind at 1. unfold save. cbn [fields].
    unfold before_hash in Hv. cbn [tick next_id]. rewrite Hv.
    reflexivity.
Qed.

(** *** Login *)


(** X2. Neither a login nor a profile read ever writes: whatever the
    request and the store, the stored users and the identifier counter
    are what they were, and exactly one lookup was issued. *)
Theorem read_handlers_never_write
        (email password : string) (id : nat) (w : World) :
  (users (snd (login email password w)) = users w
   /\ next_id (snd (login email password w)) = next_id w
   /\ oplog (snd (login email password w)) = OpFindOne email :: oplog w)
  /\ (users (snd (getProfile id w)) = users w
      /\ next_id (snd (getProfile id w)) = next_id w
      /\ oplog (snd (getProfile id w)) = OpFindById id :: oplog w).
Proof.
  rewrite login_run, getProfile_run. split.
  - destruct (next_fails w); [repeat split |].
    destruct (holder email w) as [u |]; [| repeat split].
    destruct (compare password (User.password u)); repeat split.
  - destruct (next_fails w); repeat split.
Qed.

(** X3. When the first store operation of a handler throws, the handler
    answers 500 (with 'Server error'; the update with 'Unable to update
    profile') and the stored users are what they were. *)
Theorem store_failure_answers_500
        (sreq : SignupRequest) (email password : string) (id : nat)
        (ureq : UpdateRequest) (w : World) :
  next_fails w = true ->
  (fst (signup sreq w) = server_error
   /\ users (snd (signup sreq w)) = users w)
  /\ (fst (login email password w) = server_error
      /\ users (snd (login email password w)) = users w)
  /\ (fst (getProfile id w) = server_error
      /\ users (snd (getProfile id w)) = users w)
  /\ (fst (updateProfile id ureq w) = update_failed
      /\ users (snd (updateProfile id ureq w)) = users w).
Proof.
  intros Hfail.
  rewrite signup_run, login_run, getProfile_run, Hfail.
  repeat split; unfold updateProfile, try_catch, bind;
    rewrite findById_run, Hfail; reflexivity.
Qed.

(** X4. A signup whose email is free but whose document fails validation,
    or whose write throws, is answered 500 with 'Server error'; no user is
    stored, and the identifier that was drawn is not given out again. *)
Theorem signup_failed_save_stores_nothing (req : SignupRequest) (w : World) :
  fst (findOne (signup_email req) w) = Ok None ->
  validate (before_hash req w) = false
  \/ nth 1 (faults w) false = true ->
  fst (signup req w) = server_error
  /\ users (snd (signup req w)) = users w
  /\ next_id (snd (signup req w)) = S (next_id w).
Proof.
  intros Habsent Hbad.
  destruct (findOne_found _ _ _ Habsent) as [Hok Hr].
  destruct (holder (signup_email req) w) eqn:Hh; [discriminate |].
  rewrite signup_run, Hok, Hh.
  destruct (validate (before_hash req w)); [| repeat split].
  destruct Hbad as [Hbad | Hbad]; [discriminate |].
  assert (Hw : next_fails (drawn req w) = true).
  { rewrite next_fails_nth. unfold drawn. cbn [faults].
    rewrite nth_tl. exact Hbad. }
  rewrite Hw. repeat split.
Qed.

Lemma signup_env_run (env : option string) (req : SignupRequest)
      (w : World) :
  signup_env env req w =
  if next_fails w
  then (server_error, tick (OpFindOne (signup_email req)) w)
  else
    match holder (signup_email req) w with
    | Some _ => (duplicate_email, tick (OpFindOne (signup_email req)) w)
    | None =>
        if validate (before_hash req w) then
          if next_fails (drawn req w)
          then (server_error, tick (OpSave (next_id w)) (drawn req w))
          else
            (match env with
             | Some key =>
                 if String.eqb key "" then server_error
                 else mkResponse 201
                        (SignupBody "User created successfully"
                                    (issued_under key (next_id w) w))
             | None => server_error
             end,
             written (users w ++ [signed_up req w]) (OpSave (next_id w))
                     (drawn req w))
        else (server_error, drawn req w)
    end.
Proof.
  unfold signup_env, try_catch, bind at 1. rewrite findOne_run.
  destruct (next_fails w) eqn:Hok; [reflexivity |].
  destruct (holder (signup_email req) w) eqn:Hh; cbn [option_map];
    [reflexivity |].
  unfold bind at 1. unfold new_User, bind at 1, fresh_id, ret at 1.
  unfold bind at 1.
  destruct (validate (before_hash req w)) eqn:Hv.
  - destruct (next_fails (drawn req w)) eqn:Hw.
    + unfold save. cbn [fields]. unfold before_hash in Hv.
      cbn [tick next_id]. rewrite Hv. cbn [negb].
      unfold bind at 1. rewrite store_op_run.
      unfold drawn in Hw. cbn [tick users faults oplog next_id now].
      rewrite Hw. reflexivity.
    + rewrite save_new_run; [| reflexivity | exact Hv | exact Hw].
      unfold bind, jwt_sign_env.
      destruct env as [key |]; [| reflexivity].
      destruct (String.eqb key ""); [reflexivity |].
      unfold jwt_sign. rewrite timespan_30d. reflexivity.
  - unfold save. cbn [fields]. unfold before_hash in Hv.
    cbn [tick next_id]. rewrite Hv. reflexivity.
Qed.

(** Under a key that is set and not empty, [signup_env] is [signup]. *)
Lemma signup_env_supplied (req : SignupRequest) (w : World) :
  JWT_SECRET <> "" ->
  signup_env (Some JWT_SECRET) req w = signup req w.
Proof.
  intros Hkey. rewrite signup_env_run, signup_run.
  destruct (String.eqb_spec JWT_SECRET ""); [contradiction | reflexivity].
Qed.

(** X5. A signup never changes or removes a stored user, whatever
    [process.env.JWT_SECRET] is: it is answered 201, 400 or 500, and the
    stored users afterwards are the ones before, or the ones before with
    the new user appended.  The user is appended on every 201, and also
    on the 500 that [jwt.sign] causes after the save when the key is
    unset or empty; answered 400, or 500 under a usable key, the signup
    has stored nothing. *)
Theorem signup_stores_at_most_one
        (env : option string) (req : SignupRequest) (w : World) :
  let out := signup_env env req w in
  ((status (fst out) = 201 /\ usable env = true
    /\ users (snd out) = (users w ++ [signed_up req w])%list)
   \/ (status (fst out) = 400 /\ users (snd out) = users w)
   \/ (fst out = server_error /\ users (snd out) = users w)
   \/ (fst out = server_error /\ usable env = false
       /\ users (snd out) = (users w ++ [signed_up req w])%list))
  /\ (usable env = false ->
      fst (findOne (signup_email req) w) = Ok None ->
      validate (before_hash req w) = true ->
      nth 1 (faults w) false = false ->
      fst out = server_error
      /\ users (snd out) = (users w ++ [signed_up req w])%list).
Proof.
  cbv zeta. rewrite signup_env_run. split.
  - destruct (next_fails w); [right; right; left; split; reflexivity |].
    destruct (holder (signup_email req) w);
      [right; left; split; reflexivity |].
    destruct (validate (before_hash req w));
      [| right; right; left; split; reflexivity].
    destruct (next_fails (drawn req w));
      [right; right; left; split; reflexivity |].
    destruct env as [key |]; cbn [usable fst snd];
      [| right; right; right; repeat split].
    destruct (String.eqb key ""); cbn [negb];
      [right; right; right; repeat split | left; repeat split].
  - intros Hkey Habsent Hvalid Hwrite.
    destruct (findOne_found _ _ _ Habsent) as [Hok Hr].
    destruct (holder (signup_email req) w) eqn:Hh; [discriminate |].
    rewrite Hok, Hvalid.
    assert (Hw : next_fails (drawn req w) = false).
    { rewrite next_fails_nth. unfold drawn. cbn [faults].
      rewrite nth_tl. exact Hwrite. }
    rewrite Hw. destruct env as [key |]; cbn [usable] in Hkey.
    + destruct (String.eqb key ""); [split; reflexivity | discriminate].
    + split; reflexivity.
Qed.

(** *** Lists of users *)

Lemma NoDup_snoc {A : Type} (l : list A) (x : A) :
  NoDup l -> ~ In x l -> NoDup (l ++ [x]).
Proof.
  induction l as [| a l IH]; cbn; intros Hnd Hx.
  - constructor; [intros [] | constructor].
  - inversion Hnd as [| a' l' Ha Hl]; subst. constructor.
    + intros Hin. apply in_app_or in Hin. destruct Hin as [Hin | [-> | []]].
      * contradiction.
      * apply Hx. left. reflexivity.
    + apply IH; [exact Hl |]. intros Hin. apply Hx. right. exact Hin.
Qed.

Lemma find_snoc {A : Type} (f : A -> bool) (l : list A) (x : A) :
  find f l = None -> find f (l ++ [x]) = if f x then Some x else None.
Proof.
  induction l as [| a l IH]; cbn; [reflexivity |].
  destruct (f a); [discriminate | exact IH].
Qed.

Lemma holder_none (e : string) (w : World) :
  holder e w = None -> ~ In e (map User.email (users w)).
Proof.
  unfold holder. intros Hnone Hin. apply in_map_iff in Hin.
  destruct Hin as (u & He & Hu).
  pose proof (find_none _ _ Hnone u Hu) as Hf. cbn in Hf.
  rewrite He, String.eqb_refl in Hf. discriminate.
Qed.


Lemma replace_ids (u : User.t) (us us' : list User.t) :
  replace u us = Some us' -> map User._id us' = map User._id us.
Proof.
  revert us'. induction us as [| v rest IH]; cbn; intros us' H;
    [discriminate |].
  destruct (Nat.eqb (User._id v) (User._id u)) eqn:Hv.
  - inversion H. cbn. apply Nat.eqb_eq in Hv. rewrite Hv. reflexivity.
  - destruct (replace u rest) as [rest' |]; cbn in H; [| discriminate].
    inversion H. cbn. rewrite (IH rest' eq_refl). reflexivity.
Qed.

Lemma replace_other (u : User.t) (us us' : list User.t) (id' : nat) :
  replace u us = Some us' ->
  id' <> User._id u ->
  find (fun v => Nat.eqb (User._id v) id') us'
  = find (fun v => Nat.eqb (User._id v) id') us.
Proof.
  revert us'. induction us as [| v rest IH]; cbn; intros us' H Hne;
    [discriminate |].
  destruct (Nat.eqb (User._id v) (User._id u)) eqn:Hv.
  - inversion H. cbn. apply Nat.eqb_eq in Hv.
    destruct (Nat.eqb_spec (User._id u) id') as [Heq | _];
      [symmetry in Heq; contradiction |].
    destruct (Nat.eqb_spec (User._id v) id') as [Heq | _];
      [rewrite Hv in Heq; symmetry in Heq; contradiction |].
    reflexivity.
  - destruct (replace u rest) as [rest' |]; cbn in H; [| discriminate].
    inversion H. cbn. rewrite (IH rest' eq_refl Hne). reflexivity.
Qed.

Lemma replace_emails (u : User.t) (us us' : list User.t) (x : string) :
  replace u us = Some us' ->
  In x (map User.email us') ->
  In x (map User.email us) \/ x = User.email u.
Proof.
  revert us'. induction us as [| v rest IH]; cbn; intros us' H Hin;
    [discriminate |].
  destruct (Nat.eqb (User._id v) (User._id u)).
  - inversion H; subst us'. cbn in Hin. destruct Hin as [<- | Hin]; auto.
  - destruct (replace u rest) as [rest' |]; cbn in H; [| discriminate].
    inversion H; subst us'. cbn in Hin. destruct Hin as [<- | Hin]; auto.
    destruct (IH rest' eq_refl Hin); auto.
Qed.

(** Replacing the user an identifier finds by one that keeps its email,
    or takes an email no stored user has, keeps the emails distinct. *)
Lemma replace_emails_nodup (u u0 : User.t) (us us' : list User.t) :
  NoDup (map User.email us) ->
  find (fun v => Nat.eqb (User._id v) (User._id u)) us = Some u0 ->
  User.email u = User.email u0 \/ ~ In (User.email u) (map User.email us) ->
  replace u us = Some us' ->
  NoDup (map User.email us').
Proof.
  revert us'. induction us as [| v rest IH]; cbn; intros us' Hnd Hfind He H;
    [discriminate |].
  inversion Hnd as [| e l Hv Hrest]; subst.
  destruct (Nat.eqb (User._id v) (User._id u)).
  - inversion Hfind; subst u0. inversion H; subst us'. cbn.
    constructor; [| exact Hrest].
    destruct He as [-> | He]; [exact Hv |].
    intros Hin. apply He. right. exact Hin.
  - destruct (replace u rest) as [rest' |] eqn:Hrep; cbn in H;
      [| discriminate].
    inversion H; subst us'. cbn. constructor.
    + intros Hin.
      destruct (replace_emails u rest rest' _ Hrep Hin) as [Hin' | Heq].
      * contradiction.
      * destruct He as [He | He].
        -- apply Hv. rewrite Heq, He.
           apply find_some in Hfind. apply in_map. apply Hfind.
        -- apply He. left. exact Heq.
    + apply (IH rest' Hrest Hfind); [| reflexivity].
      destruct He as [He | He]; [left; exact He |].
      right. intros Hin. apply He. right. exact Hin.
Qed.

(** *** Every way an update ends *)

Lemma update_rest_next_id (req : UpdateRequest) (d : Doc) (w : World) :
  next_id (snd (try_catch (update_rest req d) (fun _ => update_failed) w))
  = next_id w.
Proof.
  unfold update_rest, try_catch, bind, save.
  destruct (validate (fields (assignments req d))); cbn [negb].
  - unfold bind. rewrite store_op_run.
    destruct (next_fails w); cbn [snd fst]; [reflexivity |].
    unfold get_users.
    destruct (isNew (pre_save (assignments req d))); [reflexivity |].
    destruct (replace (fields (pre_save (assignments req d)))
                      (users (tick _ w))); reflexivity.
  - reflexivity.
Qed.

Lemma updateProfile_write (id : nat) (req : UpdateRequest) (w : World) :
  let out := updateProfile id req w in
  next_id (snd out) = next_id w
  /\ ((fst out = update_failed \/ fst out = duplicate_email
       \/ fst out = mkResponse 404 (ErrorBody "User not found"))
      /\ users (snd out) = users w
      \/ exists u,
          stored id w = Some u
          /\ fst out = update_done
          /\ (changes_email req u = true ->
              holder (value (update_email req)) w = None)
          /\ replace (saved req (patched req u)) (users w)
             = Some (users (snd out))).
Proof.
  cbv zeta.
  destruct (next_fails w) eqn:Hok.
  { unfold updateProfile, try_catch, bind. rewrite findById_run, Hok.
    cbn. split; [reflexivity |]. left. split; [left |]; reflexivity. }
  destruct (stored id w) as [u |] eqn:Hst.
  2:{ unfold updateProfile, try_catch, bind. rewrite findById_run, Hok, Hst.
      cbn. split; [reflexivity |]. left.
      split; [right; right |]; reflexivity. }
  unfold patched.
  destruct (changes_email req u) eqn:Hch.
  - rewrite (updateProfile_change id req w u Hst Hok Hch).
    destruct (next_fails (tick (OpFindById id) w)).
    { cbn. split; [reflexivity |]. left. split; [left |]; reflexivity. }
    destruct (holder (value (update_email req)) w) eqn:Hh.
    { cbn. split; [reflexivity |]. left.
      split; [right; left |]; reflexivity. }
    split; [rewrite update_rest_next_id; reflexivity |].
    destruct (update_rest_outcome req
                (assign_email (loaded u) (value (update_email req)))
                (tick (OpFindOne (value (update_email req)))
                      (tick (OpFindById id) w))
                id u eq_refl (stored_id _ _ _ Hst) Hst)
      as [(_ & _ & Hr & _ & Hrep & _) | (_ & Hr & Hu)].
    + right. exists u. rewrite Hch. repeat split; try assumption.
    + left. split; [left; exact Hr | exact Hu].
  - rewrite (updateProfile_keep id req w u Hst Hok Hch).
    split; [rewrite update_rest_next_id; reflexivity |].
    destruct (update_rest_outcome req (loaded u)
                (tick (OpFindById id) w)
                id u eq_refl (stored_id _ _ _ Hst) Hst)
      as [(_ & _ & Hr & _ & Hrep & _) | (_ & Hr & Hu)].
    + right. exists u. rewrite Hch.
      repeat split; try assumption. discriminate.
    + left. split; [left; exact Hr | exact Hu].
Qed.

Lemma patched_saved (req : UpdateRequest) (u : User.t) :
  User._id (saved req (patched req u)) = User._id u
  /\ (User.email (saved req (patched req u)) = User.email u
      /\ changes_email req u = false
      \/ User.email (saved req (patched req u)) = value (update_email req)
         /\ changes_email req u = true).
Proof.
  assert (Hmod : passwordModified (patched req u) = false).
  { unfold patched. destruct (changes_email req u); reflexivity. }
  destruct (saved_fields req (patched req u) Hmod) as (Hid & _ & He & _).
  rewrite Hid, He. unfold patched.
  destruct (changes_email req u); cbn; auto.
Qed.

(** *** Profile update *)

(** X6. An update whose identifier resolves to no stored user is answered
    404 with 'User not found': only the lookup by identifier was issued,
    whatever the body holds, and the stored users are what they were. *)
Theorem updateProfile_missing_user_404
        (id : nat) (req : UpdateRequest) (w : World) :
  fst (findById id w) = Ok None ->
  fst (updateProfile id req w)
  = mkResponse 404 (ErrorBody "User not found")
  /\ users (snd (updateProfile id req w)) = users w
  /\ oplog (snd (updateProfile id req w)) = OpFindById id :: oplog w.
Proof.
  intros Hnone.
  destruct (findById_found _ _ _ Hnone) as [Hok Hr].
  destruct (stored id w) eqn:Hst; [discriminate |].
  unfold updateProfile, try_catch, bind.
  rewrite findById_run, Hok, Hst. repeat split.
Qed.

(** X7. An update never touches another user, and it neither adds nor
    removes one: for every identifier other than the caller's the stored
    user is what it was, and the stored identifiers are the same, in the
    same order. *)
Theorem updateProfile_leaves_other_users
        (id id' : nat) (req : UpdateRequest) (w : World) :
  id' <> id ->
  stored id' (snd (updateProfile id req w)) = stored id' w
  /\ map User._id (users (snd (updateProfile id req w)))
     = map User._id (users w).
Proof.
  intros Hne.
  destruct (updateProfile_write id req w)
    as [_ [[_ Hu] | (u & Hst & _ & _ & Hrep)]].
  - unfold stored. rewrite Hu. split; reflexivity.
  - destruct (patched_saved req u) as [Hid _].
    split.
    + unfold stored. apply (replace_other _ _ _ id' Hrep).
      rewrite Hid, (stored_id _ _ _ Hst). exact Hne.
    + apply (replace_ids _ _ _ Hrep).
Qed.

Lemma updateProfile_emails_nodup (id : nat) (req : UpdateRequest)
      (w : World) :
  NoDup (map User.email (users w)) ->
  NoDup (map User.email (users (snd (updateProfile id req w)))).
Proof.
  intros Hnd.
  destruct (updateProfile_write id req w)
    as [_ [[_ Hu] | (u & Hst & _ & Hfree & Hrep)]].
  - rewrite Hu. exact Hnd.
  - destruct (patched_saved req u) as [Hid Hemail].
    eapply replace_emails_nodup with (u0 := u);
      [exact Hnd | | | exact Hrep].
    + rewrite Hid, (stored_id _ _ _ Hst). exact Hst.
    + destruct Hemail as [[He _] | [He Hch]].
      * left. exact He.
      * right. rewrite He. apply holder_none. apply Hfree. exact Hch.
Qed.

(** X8. An update keeps a consistent store consistent: the emails stay
    distinct (a changed email was looked up and found free), the
    identifiers stay distinct and below the counter. *)
Theorem updateProfile_preserves_consistency
        (id : nat) (req : UpdateRequest) (w : World) :
  consistent w -> consistent (snd (updateProfile id req w)).
Proof.
  intros (Hemails & Hids & Hbound). unfold consistent.
  split; [apply updateProfile_emails_nodup; exact Hemails |].
  destruct (updateProfile_write id req w)
    as [Hnext [[_ Hu] | (u & _ & _ & _ & Hrep)]].
  - rewrite Hu, Hnext. split; assumption.
  - rewrite Hnext. apply replace_ids in Hrep. split.
    + rewrite Hrep. exact Hids.
    + apply Forall_map with (f := User._id) (P := fun i => i < next_id w).
      rewrite Hrep. apply Forall_map. exact Hbound.
Qed.

(** X9. A user may send their own email back: an update whose body holds
    the stored email issues no lookup by email and is not refused as a
    duplicate; with the save working it is answered 200 and the stored
    email stays. *)
Theorem updateProfile_own_email_accepted
        (id : nat) (req : UpdateRequest) (w : World) (u : User.t) :
  stored id w = Some u ->
  update_email req = Some (User.email u) ->
  healthy 2 w ->
  validate (fields (assignments req (loaded u))) = true ->
  fst (updateProfile id req w) = update_done
  /\ oplog (snd (updateProfile id req w))
     = OpSave id :: OpFindById id :: oplog w
  /\ exists u',
       stored id (snd (updateProfile id req w)) = Some u'
       /\ User.email u' = User.email u.
Proof.
  intros Hst He Hh Hv.
  destruct (healthy_next 1 (OpFindById id) w Hh) as [Hok Hh1].
  destruct (healthy_next 0 (OpSave id) _ Hh1) as [Hok1 _].
  assert (Hch : changes_email req u = false).
  { unfold changes_email. rewrite He. cbn [value].
    rewrite String.eqb_refl. apply andb_false_r. }
  rewrite (updateProfile_keep id req w u Hst Hok Hch).
  destruct (update_rest_outcome req (loaded u) (tick (OpFindById id) w)
              id u eq_refl (stored_id _ _ _ Hst) Hst)
    as [(_ & _ & Hr & Hs & _ & Hlog & _) | ([Hbad | Hbad] & _)];
    [| congruence | congruence].
  split; [exact Hr |]. split; [exact Hlog |].
  eexists. split; [exact Hs |].
  destruct (saved_fields req (loaded u) eq_refl) as (_ & _ & Hemail & _).
  exact Hemail.
Qed.

Lemma saved_again (req : UpdateRequest) (u : User.t) :
  truthy (update_password req) = false ->
  saved req (loaded (saved req (patched req u))) = saved req (patched req u).
Proof.
  intros Hpw. unfold saved, patched, assignments, pre_save. rewrite Hpw.
  destruct u as [i n e p ph pic].
  destruct (changes_email req _), (truthy (update_name req)),
    (truthy (update_phone req)), (truthy (update_profilePicture req));
    reflexivity.
Qed.

(** X10. An update that holds no secret is idempotent on the store: once
    it was answered 200, sending the same body again leaves the stored
    users as the first call left them, whether the second call is
    answered 200 or fails. *)
Theorem updateProfile_idempotent
        (id : nat) (req : UpdateRequest) (w : World) :
  let first := updateProfile id req w in
  let second := updateProfile id req (snd first) in
  status (fst first) = 200 ->
  truthy (update_password req) = false ->
  users (snd second) = users (snd first).
Proof.
  cbv zeta. intros Hdone Hpw.
  destruct (updateProfile_write id req w)
    as [_ [[Hr _] | (u & Hst & _ & _ & Hrep)]].
  { destruct Hr as [Hr | [Hr | Hr]]; rewrite Hr in Hdone; discriminate. }
  set (w1 := snd (updateProfile id req w)) in *.
  set (u1 := saved req (patched req u)) in *.
  destruct (patched_saved req u) as [Hid Hemail]. fold u1 in Hid, Hemail.
  assert (Hfind : find (fun v => Nat.eqb (User._id v) (User._id u1))
                       (users w) = Some u).
  { rewrite Hid, (stored_id _ _ _ Hst). exact Hst. }
  destruct (replace_found u1 (users w) u Hfind) as (us' & Hrep' & Hfound).
  rewrite Hrep in Hrep'. inversion Hrep'; subst us'.
  assert (Hst1 : stored id w1 = Some u1).
  { unfold stored. rewrite <- (stored_id _ _ _ Hst), <- Hid. exact Hfound. }
  assert (Hch1 : changes_email req u1 = false).
  { unfold changes_email.
    destruct (truthy (update_email req)) eqn:Ht; [| reflexivity].
    cbn [andb]. destruct Hemail as [[He Hch] | [He _]].
    - unfold changes_email in Hch. rewrite Ht in Hch. cbn [andb] in Hch.
      rewrite He. exact Hch.
    - rewrite He, String.eqb_refl. reflexivity. }
  destruct (updateProfile_write id req w1)
    as [_ [[_ Hu] | (u1' & Hst1' & _ & _ & Hrep1)]].
  - exact Hu.
  - rewrite Hst1 in Hst1'. inversion Hst1'; subst u1'.
    unfold patched in Hrep1. rewrite Hch1 in Hrep1.
    assert (Hsame : saved req (loaded u1) = u1).
    { unfold u1. apply saved_again. exact Hpw. }
    rewrite Hsame in Hrep1.
    rewrite (replace_same u1 (users w1)) in Hrep1.
    + inversion Hrep1. reflexivity.
    + exact Hfound.
Qed.

(** *** Signup *)

Lemma signup_users (req : SignupRequest) (w : World) :
  next_id w <= next_id (snd (signup req w))
  /\ (users (snd (signup req w)) = users w
      \/ users (snd (signup req w)) = (users w ++ [signed_up req w])%list
         /\ holder (signup_email req) w = None
         /\ next_id (snd (signup req w)) = S (next_id w)).
Proof.
  rewrite signup_run.
  destruct (next_fails w); [cbn; split; [lia | auto] |].
  destruct (holder (signup_email req) w); [cbn; split; [lia | auto] |].
  destruct (validate (before_hash req w)); [| cbn; split; [lia | auto]].
  destruct (next_fails (drawn req w)); cbn; (split; [lia | auto]).
Qed.

(** X11. A signup keeps a consistent store consistent: the new user's
    email was looked up and found free, and its identifier is fresh. *)
Theorem signup_preserves_consistency (req : SignupRequest) (w : World) :
  consistent w -> consistent (snd (signup req w)).
Proof.
  intros (Hemails & Hids & Hbound). unfold consistent.
  destruct (signup_users req w) as [Hnext [Hold | (Hnew & Hfree & Hid)]].
  - rewrite Hold. repeat split; auto.
    eapply Forall_impl; [| exact Hbound]. cbn. intros u Hu. lia.
  - rewrite Hnew, Hid. rewrite !map_app.
    cbn [map signed_up User.email User._id].
    split; [| split].
    + apply NoDup_snoc; [exact Hemails |]. apply holder_none. exact Hfree.
    + apply NoDup_snoc; [exact Hids |]. intros Hin.
      apply in_map_iff in Hin. destruct Hin as (u & Hu & Hin).
      rewrite Forall_forall in Hbound. specialize (Hbound u Hin). lia.
    + apply Forall_app. split.
      * eapply Forall_impl; [| exact Hbound]. cbn. intros u Hu. lia.
      * constructor; [cbn; lia | constructor].
Qed.

(** *** Handlers in sequence *)

Lemma holder_after_signup (req : SignupRequest) (w : World)
      (op : StoreOp) (w0 : World) :
  holder (signup_email req) w = None ->
  holder (signup_email req)
         (written (users w ++ [signed_up req w]) op w0)
  = Some (signed_up req w).
Proof.
  intros Hfree. unfold holder, written. cbn [users].
  rewrite find_snoc; [| exact Hfree].
  cbn [signed_up User.email]. rewrite String.eqb_refl. reflexivity.
Qed.


(** X13. After a signup that was answered 201, every further signup with
    the same email is answered 400 with 'Email already exists' and stores
    nothing, whatever its other fields. *)
Theorem signup_twice_is_duplicate (req again : SignupRequest) (w : World) :
  status (fst (signup req w)) = 201 ->
  signup_email again = signup_email req ->
  next_fails (snd (signup req w)) = false ->
  fst (signup again (snd (signup req w))) = duplicate_email
  /\ users (snd (signup again (snd (signup req w))))
     = users (snd (signup req w)).
Proof.
  intros Hcreated Hsame.
  rewrite (signup_run req w) in *.
  destruct (next_fails w); [discriminate |].
  destruct (holder (signup_email req) w) eqn:Hfree; [discriminate |].
  destruct (validate (before_hash req w)); [| discriminate].
  destruct (next_fails (drawn req w)); [discriminate |].
  cbn [snd]. intros Hok.
  rewrite signup_run, Hok, Hsame.
  rewrite (holder_after_signup req w _ _ Hfree). split; reflexivity.
Qed.


(** X15. The statuses the handlers answer with: a signup 201, 400 or 500;
    a login 200, 400 or 500; a profile read 200 or 500; an update 200,
    400, 404 or 500. *)
Theorem response_statuses
        (sreq : SignupRequest) (email password : string) (id : nat)
        (ureq : UpdateRequest) (w : World) :
  In (status (fst (signup sreq w))) [201; 400; 500]
  /\ In (status (fst (login email password w))) [200; 400; 500]
  /\ In (status (fst (getProfile id w))) [200; 500]
  /\ In (status (fst (updateProfile id ureq w))) [200; 400; 404; 500].
Proof.
  split; [| split; [| split]].
  - rewrite signup_run.
    destruct (next_fails w); [cbn; auto |].
    destruct (holder (signup_email sreq) w); [cbn; auto |].
    destruct (validate (before_hash sreq w)); [| cbn; auto].
    destruct (next_fails (drawn sreq w)); cbn; auto.
  - rewrite login_run.
    destruct (next_fails w); [cbn; auto |].
    destruct (holder email w) as [u |]; [| cbn; auto].
    destruct (compare password (User.password u)); cbn; auto.
  - rewrite getProfile_run. destruct (next_fails w); cbn; auto.
  - destruct (updateProfile_write id ureq w)
      as [_ [[[Hr | [Hr | Hr]] _] | (u & _ & Hr & _)]];
      rewrite Hr; cbn; auto.
Qed.

End Service.

(** ** The claims on a concrete store *)

Lemma login_failures_indistinguishable_witness :
  fst (findOne "nobody@x.com" Sample.world) = Ok None
  /\ fst (findOne "a@x.com" Sample.world) = Ok (Some (loaded Sample.alice))
  /\ matchPassword Sample.compare (loaded Sample.alice) "wrong" = false
  /\ fst (login Sample.compare Sample.hmac Sample.JWT_SECRET
                "nobody@x.com" "pw1" Sample.world)
     = fst (login Sample.compare Sample.hmac Sample.JWT_SECRET
                  "a@x.com" "wrong" Sample.world).
Proof.
  split; [reflexivity |]. split; [reflexivity |]. split; [reflexivity |].
  apply (login_failures_indistinguishable
           Sample.compare Sample.hmac Sample.JWT_SECRET
           Sample.world Sample.world "nobody@x.com" "pw1" "a@x.com" "wrong"
           (loaded Sample.alice)); reflexivity.
Defined.

Lemma signup_duplicate_rejected_witness :
  fst (findOne "a@x.com" Sample.world) = Ok (Some (loaded Sample.alice))
  /\ fst (signup Sample.hash Sample.hmac Sample.validate Sample.JWT_SECRET
                 Sample.again Sample.world)
     = mkResponse 400 (ErrorBody "Email already exists")
  /\ users (snd (signup Sample.hash Sample.hmac Sample.validate
                        Sample.JWT_SECRET Sample.again Sample.world))
     = users Sample.world.
Proof.
  split; [reflexivity |].
  destruct (signup_duplicate_rejected
              Sample.hash Sample.hmac Sample.validate Sample.JWT_SECRET
              Sample.again Sample.world (loaded Sample.alice) eq_refl)
    as (Hr & Hu & _).
  split; assumption.
Defined.


Lemma getProfile_projects_password_away_witness :
  fst (findById 1 Sample.world) = Ok (Some (loaded Sample.alice))
  /\ exists view,
       fst (getProfile 1 Sample.world) = mkResponse 200 (DocBody (Some view))
       /\ field "password" view = None
       /\ field "_id" view = Some (VId 1)
       /\ field "name" view = Some (VStr "A")
       /\ field "email" view = Some (VStr "a@x.com")
       /\ field "phone" view = Some (VStr "555-0100")
       /\ field "profilePicture" view = None.
Proof.
  split; [reflexivity |].
  destruct (getProfile_projects_password_away
              1 Sample.world (loaded Sample.alice) eq_refl)
    as (view & Hr & Hp & _ & _ & _ & Hid & Hn & He & Hph & Hpic & _).
  exists view. repeat split; assumption.
Defined.

Lemma getProfile_missing_user_null_witness :
  fst (findById 7 Sample.world) = Ok None
  /\ fst (getProfile 7 Sample.world) = mkResponse 200 (DocBody None).
Proof.
  split; [reflexivity |].
  apply (getProfile_missing_user_null 7 Sample.world). reflexivity.
Defined.

Lemma healthy_sample (n : nat) : healthy n Sample.world.
Proof. intros k _. destruct k; reflexivity. Defined.

Lemma updateProfile_applies_provided_fields_witness :
  stored 1 Sample.world = Some Sample.alice
  /\ exists u',
       stored 1 (snd (updateProfile Sample.hash Sample.validate 1
                        (mkUpdateRequest (Some "") None (Some "555-0199")
                                         None (Some "pw4"))
                        Sample.world))
       = Some u'
       /\ User.name u' = "A"
       /\ User.email u' = "a@x.com"
       /\ User.phone u' = Some "555-0199"
       /\ User.password u' = Sample.hash "pw4".
Proof.
  split; [reflexivity |].
  destruct (updateProfile_applies_provided_fields
              Sample.hash Sample.validate 1
              (mkUpdateRequest (Some "") None (Some "555-0199")
                               None (Some "pw4"))
              Sample.world Sample.alice eq_refl)
    as [Hdone _].
  destruct (Hdone eq_refl) as (u' & Hs & Hn & He & Hp & _ & Hpw).
  exists u'. repeat split; assumption.
Defined.

Lemma update_name_X_twice_witness :
  stored 1 Sample.world = Some Sample.alice
  /\ healthy 4 Sample.world
  /\ Sample.validate (with_name Sample.alice "X") = true
  /\ users (snd (updateProfile Sample.hash Sample.validate 1 (name_only "X")
                   (snd (updateProfile Sample.hash Sample.validate 1
                                       (name_only "X") Sample.world))))
     = users (snd (updateProfile Sample.hash Sample.validate 1
                                 (name_only "X") Sample.world)).
Proof.
  split; [reflexivity |]. split; [apply healthy_sample |].
  split; [reflexivity |].
  apply (update_name_X_twice Sample.hash Sample.validate 1 Sample.world
                             Sample.alice eq_refl);
    [apply healthy_sample | reflexivity].
Defined.

Lemma updateProfile_email_change_witness :
  stored 1 Sample.world = Some Sample.alice
  /\ "b@x.com" <> ""
  /\ "b@x.com" <> User.email Sample.alice
  /\ healthy 2 Sample.world
  /\ In (OpFindOne "b@x.com")
        (oplog (snd (updateProfile Sample.hash Sample.validate 1
                       (mkUpdateRequest None (Some "b@x.com") None None None)
                       Sample.world))).
Proof.
  split; [reflexivity |]. split; [discriminate |]. split; [discriminate |].
  split; [apply healthy_sample |].
  apply (updateProfile_email_change
           Sample.hash Sample.validate 1
           (mkUpdateRequest None (Some "b@x.com") None None None)
           Sample.world Sample.alice "b@x.com" eq_refl eq_refl);
    [discriminate | discriminate | apply healthy_sample].
Defined.

(** ** Where the claims on updates, as they are worded, fail *)

(** A body [{name: ""}] holds a name, the update is answered 200, and the
    stored name is still "A". *)
Lemma empty_name_is_not_applied :
  ~ applies_every_present_field Sample.hash Sample.validate.
Proof.
  intros H.
  destruct (H 1 (mkUpdateRequest (Some "") None None None None)
              Sample.world Sample.alice eq_refl eq_refl)
    as (u' & Hs & Hname & _).
  vm_compute in Hs. inversion Hs; subst u'.
  specialize (Hname "" eq_refl). discriminate Hname.
Qed.

(** A body [{email: ""}] holds an email that differs from the stored one;
    no lookup by email is issued and the stored email is still
    "a@x.com". *)
Lemma empty_email_is_not_rechecked :
  ~ rechecks_every_different_email Sample.hash (fun _ => true).
Proof.
  intros H.
  destruct (H 1 (mkUpdateRequest None (Some "") None None None)
              Sample.world Sample.alice "" eq_refl eq_refl)
    as (Hlookup & _).
  - discriminate.
  - reflexivity.
  - reflexivity.
  - vm_compute in Hlookup. destruct Hlookup as [Hl | [Hl | []]];
      discriminate Hl.
Qed.

(** The two updates above, run. *)
Example empty_name_update_runs :
  updateProfile Sample.hash Sample.validate 1
    (mkUpdateRequest (Some "") None None None None) Sample.world
  = (mkResponse 200 (MessageBody "Profile updated successfully"),
     mkWorld [Sample.alice; Sample.bob] [] [OpSave 1; OpFindById 1]
             3 1700000000%N).
Proof. reflexivity. Qed.

Example empty_email_update_runs :
  updateProfile Sample.hash Sample.validate 1
    (mkUpdateRequest None (Some "") None None None) Sample.world
  = (mkResponse 200 (MessageBody "Profile updated successfully"),
     mkWorld [Sample.alice; Sample.bob] [] [OpSave 1; OpFindById 1]
             3 1700000000%N).
Proof. reflexivity. Qed.

(** The scenario of the specification: a signup, a second signup with the
    same email, a login with a wrong secret, a login with the right one,
    and a profile read. *)
Example signup_login_profile_scenario :
  let run_signup := signup Sample.hash Sample.hmac Sample.validate
                           Sample.JWT_SECRET in
  let run_login := login Sample.compare Sample.hmac Sample.JWT_SECRET in
  let empty := mkWorld [] [] [] 1 1700000000%N in
  let req := mkSignupRequest "A" "a@x.com" "pw1" None None in
  let (r1, w1) := run_signup req empty in
  let (r2, w2) := run_signup req w1 in
  let (r3, w3) := run_login "a@x.com" "wrong" w2 in
  let (r4, w4) := run_login "a@x.com" "pw1" w3 in
  let (r5, w5) := getProfile 1 w4 in
  map status [r1; r2; r3; r4; r5] = [201; 400; 400; 200; 200]
  /\ body r2 = ErrorBody "Email already exists"
  /\ body r3 = ErrorBody "Invalid credentials"
  /\ body r5 = DocBody (Some [("_id", VId 1); ("name", VStr "A");
                              ("email", VStr "a@x.com")])
  /\ users w5 = [User.mk 1 "A" "a@x.com" (Sample.hash "pw1") None None].
Proof. vm_compute. repeat split. Qed.

(** ** Start-up *)

Section BootstrapFacts.

Import Bootstrap.

(** [connectDB] resolves or ends the process; it never rejects. *)
Lemma connectDB_never_rejects (uri : option string) (p : Proc) :
  fst (connectDB uri p) = Resolved \/ fst (connectDB uri p) = Exited 1.
Proof.
  unfold connectDB, mongoose_connect.
  destruct (missing uri); [right; reflexivity |].
  destruct (failures p) as [| [|] l]; cbn; auto.
Qed.

(** With the [connectDB] of config/db.js neither loop ever pauses or
    connects a second time: one round of fuel decides it, whatever the
    connection does. *)
Lemma connectWithRetry_one_attempt
      (uri : option string) (p : Proc) (fuel retryCount : nat) :
  exists o p',
    connectWithRetry (connectDB uri) (S fuel) retryCount p = Some (o, p')
    /\ connectWithRetry_unbounded (connectDB uri) (S fuel) p = Some (o, p')
    /\ sleeps p' = sleeps p
    /\ connects p' <= S (connects p).
Proof.
  unfold connectDB, mongoose_connect. cbn [connectWithRetry
    connectWithRetry_unbounded].
  destruct (missing uri).
  - cbn. do 2 eexists. repeat split; auto.
  - destruct (failures p) as [| [|] l]; cbn;
      do 2 eexists; repeat split; auto.
Qed.

(** C9, on the code.  When the first connection attempt fails, or the URI
    is missing, both variants of the start-up end the process with code 1
    at once: the trace ends in [Exit 1], it holds no pause, and at most
    the one attempt that failed. *)
Theorem connection_failure_exits_without_retry
        (uri : option string) (p : Proc) (fuel retryCount : nat) :
  uri = None \/ hd false (failures p) = true ->
  exists p',
    connectWithRetry (connectDB uri) (S fuel) retryCount p
    = Some (Exited 1, p')
    /\ connectWithRetry_unbounded (connectDB uri) (S fuel) p
       = Some (Exited 1, p')
    /\ hd_error (trace p') = Some (Exit 1)
    /\ sleeps p' = sleeps p
    /\ connects p' <= S (connects p).
Proof.
  intros Hfail.
  unfold connectDB, mongoose_connect. cbn [connectWithRetry
    connectWithRetry_unbounded].
  destruct (missing uri) eqn:Hmissing.
  - cbn. eexists. repeat split; auto.
  - destruct Hfail as [Hfail | Hfail];
      [subst uri; discriminate Hmissing |].
    destruct (failures p) as [| b l]; cbn in Hfail; [discriminate |].
    subst b. cbn. eexists. repeat split; auto.
Qed.

(** What the bounded loop would do with a [connectDB] that rejects, as
    [mongoose.connect] does: six attempts, five pauses of 5000 ms, then
    exit code 1. *)
Lemma bounded_loop_with_rejecting_connect :
  exists p',
    connectWithRetry mongoose_connect 7 0 (mkProc (repeat true 9) [])
    = Some (Exited 1, p')
    /\ connects p' = 6
    /\ sleeps p' = 5
    /\ forall e, In e (trace p') -> is_sleep e = true -> e = Sleep 5000.
Proof.
  eexists. split; [reflexivity |]. split; [reflexivity |].
  split; [reflexivity |].
  intros e Hin Hs. cbn in Hin.
  repeat (destruct Hin as [<- | Hin]; [try discriminate Hs; reflexivity |]).
  destruct Hin.
Qed.

(** The unbounded loop with a [connectDB] that rejects goes on as long as
    the connection fails: with [n] failures ahead, [n] rounds of fuel are
    not enough. *)
Lemma unbounded_loop_with_rejecting_connect (n : nat) (tr : list Event) :
  connectWithRetry_unbounded mongoose_connect n (mkProc (repeat true n) tr)
  = None.
Proof.
  revert tr. induction n as [| n IH]; intros tr; [reflexivity |].
  cbn. apply IH.
Qed.

End BootstrapFacts.

Lemma connection_failure_exits_without_retry_witness :
  hd false (Bootstrap.failures (Bootstrap.mkProc [true; false] [])) = true
  /\ exists p',
       Bootstrap.connectWithRetry
         (Bootstrap.connectDB (Some "mongodb://db")) 6 0
         (Bootstrap.mkProc [true; false] [])
       = Some (Bootstrap.Exited 1, p')
       /\ Bootstrap.sleeps p' = 0.
Proof.
  split; [reflexivity |].
  destruct (connection_failure_exits_without_retry
              (Some "mongodb://db") (Bootstrap.mkProc [true; false] []) 5 0
              (or_intror eq_refl))
    as (p' & H1 & _ & _ & Hs & _).
  exists p'. split; [exact H1 | exact Hs].
Defined.

(** ** Preflight *)

Section CorsFacts.

Import Cors.

Lemma get_header_set (name value : string) (res : Res) :
  get_header name (header name value res) = Some value.
Proof.
  unfold get_header, header. cbn. rewrite String.eqb_refl. reflexivity.
Qed.

Lemma get_header_status (name : string) (code : nat) (res : Res) :
  get_header name (status code res) = get_header name res.
Proof. reflexivity. Qed.

(** [app.options('*', ...)] grants access exactly to the origins of the
    allow-list. *)
Lemma options_all_grants (req : Request) :
  grants (options_all req fresh) = includes allowedOrigins (origin req).
Proof.
  unfold options_all.
  destruct (includes allowedOrigins (origin req)); reflexivity.
Qed.

Lemma options_all_origin (req : Request) :
  get_header "Access-Control-Allow-Origin" (options_all req fresh)
  = if includes allowedOrigins (origin req) then origin req else None.
Proof.
  unfold options_all.
  destruct (includes allowedOrigins (origin req)) eqn:Hin;
    [| reflexivity].
  destruct (origin req); [reflexivity | discriminate].
Qed.

(** In the second variant of server.js every OPTIONS request is answered
    by [app.options('*', ...)], which is registered first and ends the
    response: no later layer, the router's preflight handler included,
    sees such a request. *)
Lemma app_preflight_answered_first
      (middleware credential_routes later : list Layer) (req : Request) :
  method req = OPTIONS ->
  respond (app middleware credential_routes later) req
  = options_all req fresh.
Proof.
  intros Hm. unfold respond, app. cbn [run route matches handle].
  rewrite Hm. reflexivity.
Qed.

(** [router.options('/signup', ...)] sets the three headers for every
    request, whatever its origin. *)
Lemma signup_options_grants (req : Request) (res : Res) :
  get_header "Access-Control-Allow-Origin" (signup_options req res)
  = Some (to_string (origin req))
  /\ get_header "Access-Control-Allow-Methods" (signup_options req res)
     = Some "POST, OPTIONS"
  /\ get_header "Access-Control-Allow-Headers" (signup_options req res)
     = Some "Content-Type, Authorization".
Proof.
  unfold signup_options. rewrite !get_header_status.
  split; [| split].
  - unfold get_header, header. cbn. reflexivity.
  - unfold get_header, header. cbn. reflexivity.
  - apply get_header_set.
Qed.

(** A router mounted at [/api/auth] sees the path below the prefix: with
    no layer in front of it, the preflight of [/api/auth/signup] is
    answered by the router's handler. *)
Example mounted_router_sees_signup :
  respond [mount "/api/auth" (authRoutes [])]
          (mkRequest OPTIONS "/api/auth/signup" (Some "http://localhost:3000"))
  = signup_options
      (mkRequest OPTIONS "/signup" (Some "http://localhost:3000")) fresh.
Proof. reflexivity. Qed.

(** Taken alone, with no layer in front of it, the router answers the
    preflight of an origin that is not in the allow-list with the three
    access headers; the path is matched without regard to case and to a
    trailing slash. *)
Example router_alone_echoes_unlisted_origin :
  forall path,
    In path ["/signup"; "/signup/"; "/SignUp"] ->
    respond (authRoutes [])
            (mkRequest OPTIONS path (Some "https://evil.example"))
    = mkRes [("Access-Control-Allow-Headers", "Content-Type, Authorization");
             ("Access-Control-Allow-Methods", "POST, OPTIONS");
             ("Access-Control-Allow-Origin", "https://evil.example")]
            200.
Proof.
  intros path [<- | [<- | [<- | []]]]; reflexivity.
Qed.

Lemma includes_In (l : list string) (o : string) :
  includes l (Some o) = true <-> In o l.
Proof.
  unfold includes. rewrite existsb_exists. split.
  - intros (x & Hin & Heq). apply String.eqb_eq in Heq. subst x. exact Hin.
  - intros Hin. exists o. split; [exact Hin | apply String.eqb_refl].
Qed.

(** C8. In the application of server.js every preflight (OPTIONS)
    request, to any path, is answered by [app.options('*', ...)], which is
    registered before every other layer and ends the response; the
    preflight handler of the router, mounted behind it, is not reached.
    The answer carries Access-Control-Allow-Origin, and the allowed
    methods and headers, exactly when the request's Origin is in the
    allow-list, and then the origin echoed is the request's; for an
    origin outside the allow-list, and for a request without one, no
    header is set at all. *)
Theorem preflight_headers_only_for_allow_list
        (middleware credential_routes later : list Layer) (req : Request) :
  method req = OPTIONS ->
  let res := respond (app middleware credential_routes later) req in
  res = options_all req fresh
  /\ grants res = includes allowedOrigins (origin req)
  /\ (forall o,
        get_header "Access-Control-Allow-Origin" res = Some o <->
        origin req = Some o /\ In o allowedOrigins)
  /\ (get_header "Access-Control-Allow-Methods" res <> None <->
      exists o, origin req = Some o /\ In o allowedOrigins)
  /\ (get_header "Access-Control-Allow-Headers" res <> None <->
      exists o, origin req = Some o /\ In o allowedOrigins)
  /\ ((forall o, origin req = Some o -> ~ In o allowedOrigins) ->
      headers res = []).
Proof.
  intros Hm. cbv zeta. rewrite (app_preflight_answered_first _ _ _ _ Hm).
  split; [reflexivity |]. split; [apply options_all_grants |].
  unfold options_all.
  destruct (origin req) as [o |] eqn:Ho.
  - destruct (includes allowedOrigins (Some o)) eqn:Hin.
    + apply includes_In in Hin.
      split; [| split; [| split]].
      * intros o'. cbn. split.
        -- intros H. inversion H; subst o'. split; [reflexivity | exact Hin].
        -- intros [H _]. inversion H. reflexivity.
      * split; [intros _; exists o; split; [reflexivity | exact Hin] |].
        intros _. discriminate.
      * split; [intros _; exists o; split; [reflexivity | exact Hin] |].
        intros _. discriminate.
      * intros Hout. exfalso. apply (Hout o eq_refl Hin).
    + assert (Hnot : ~ In o allowedOrigins).
      { intros H. apply includes_In in H. congruence. }
      split; [| split; [| split]].
      * intros o'. cbn. split; [discriminate |].
        intros [H Hl]. inversion H; subst o'. contradiction.
      * cbn. split; [intros H; exfalso; apply H; reflexivity |].
        intros (o' & H & Hl). inversion H; subst o'. contradiction.
      * cbn. split; [intros H; exfalso; apply H; reflexivity |].
        intros (o' & H & Hl). inversion H; subst o'. contradiction.
      * intros _. reflexivity.
  - cbn [includes].
    split; [| split; [| split]].
    + intros o. cbn. split; [discriminate | intros [H _]; discriminate H].
    + cbn. split; [intros H; exfalso; apply H; reflexivity |].
      intros (o & H & _). discriminate H.
    + cbn. split; [intros H; exfalso; apply H; reflexivity |].
      intros (o & H & _). discriminate H.
    + intros _. reflexivity.
Qed.

End CorsFacts.

(** ** Further properties of the start-up *)

Section BootstrapMore.

Import Bootstrap.

(** X16. The bounded loop always comes to an end, whatever [connectDB]
    does: from a retry count [retryCount], one round more than the
    retries that are left is enough fuel. *)
Theorem bounded_loop_terminates
        (connect : Proc -> Outcome * Proc) (retryCount : nat) (p : Proc) :
  exists result,
    connectWithRetry connect (S (MAX_RETRIES - retryCount)) retryCount p
    = Some result.
Proof.
  remember (MAX_RETRIES - retryCount) as n eqn:Hn.
  revert retryCount p Hn.
  induction n as [| n IH]; intros retryCount p Hn; cbn [connectWithRetry].
  - destruct (connect p) as [[| msg | c] p']; try (eexists; reflexivity).
    assert (Hlt : Nat.ltb retryCount MAX_RETRIES = false).
    { apply Nat.ltb_ge. lia. }
    rewrite Hlt. eexists; reflexivity.
  - destruct (connect p) as [[| msg | c] p']; try (eexists; reflexivity).
    destruct (Nat.ltb retryCount MAX_RETRIES) eqn:Hlt;
      [| eexists; reflexivity].
    apply (IH (S retryCount)). lia.
Qed.

(** The bounded loop through [k] failed attempts that are within the
    bound: [k] pauses and [k] attempts later it stands at retry count
    [retryCount + k] with the rest of the schedule. *)
Lemma bounded_loop_through_failures (k : nat) :
  forall (retryCount fuel : nat) (p : Proc) (rest : list bool),
    failures p = (repeat true k ++ rest)%list ->
    retryCount + k <= MAX_RETRIES ->
    exists p',
      connectWithRetry mongoose_connect (k + fuel) retryCount p
      = connectWithRetry mongoose_connect fuel (retryCount + k) p'
      /\ failures p' = rest
      /\ sleeps p' = sleeps p + k
      /\ connects p' = connects p + k
      /\ (forall e, In e (trace p') -> is_sleep e = true ->
                    In e (trace p) \/ e = Sleep 5000)
      /\ pauses p' = (repeat 5000%N k ++ pauses p)%list.
Proof.
  induction k as [| k IH]; intros retryCount fuel p rest Hf Hle.
  - exists p. rewrite !Nat.add_0_r. cbn. repeat split; auto.
  - cbn [Nat.add connectWithRetry]. unfold mongoose_connect at 1.
    cbn [repeat app] in Hf. rewrite Hf.
    assert (Hlt : Nat.ltb retryCount MAX_RETRIES = true).
    { apply Nat.ltb_lt. lia. }
    rewrite Hlt.
    set (p1 := emit (Sleep 5000)
                 (emit (Log "Retrying connection in 5 seconds...")
                    (emit (Log "MongoDB connection error")
                       (mkProc (tl (true :: repeat true k ++ rest))
                               (Connect :: trace p))))).
    destruct (IH (S retryCount) fuel p1 rest eq_refl) as
      (p' & Hrun & Hrest & Hs & Hc & Htr & Hp); [lia |].
    exists p'. rewrite Hrun.
    replace (S retryCount + k) with (retryCount + S k) by lia.
    split; [reflexivity |]. split; [exact Hrest |].
    split; [rewrite Hs; unfold sleeps, p1; cbn; lia |].
    split; [rewrite Hc; unfold connects, p1; cbn; lia |].
    split.
    + intros e Hin He. destruct (Htr e Hin He) as [Hin1 | ->]; [| auto].
      unfold p1 in Hin1. cbn in Hin1.
      destruct Hin1 as [<- | [<- | [<- | [<- | Hin1]]]];
        try discriminate He; auto.
    + rewrite Hp. unfold pauses, p1. cbn [trace emit pauses_of].
      clear. induction k as [| k IHk]; cbn; [reflexivity |].
      rewrite IHk. reflexivity.
Qed.

(** X17. The bounded loop, given a [connectDB] that rejects when the
    connection fails: after [k <= 5] failures followed by a success it
    resolves, having made [k] pauses, each of 5000 ms, and [k + 1]
    attempts; after six failures it ends the process with code 1, having
    made six attempts and five pauses, each of 5000 ms.  [MAX_RETRIES]
    bounds the retries, not the attempts. *)
Theorem bounded_loop_counts_retries (p : Proc) (k : nat) (rest : list bool) :
  failures p = (repeat true k ++ rest)%list ->
  hd false rest = false ->
  (k <= MAX_RETRIES ->
   exists p',
     connectWithRetry mongoose_connect (k + 1) 0 p = Some (Resolved, p')
     /\ pauses p' = (repeat 5000%N k ++ pauses p)%list
     /\ sleeps p' = sleeps p + k
     /\ connects p' = connects p + k + 1)
  /\ (MAX_RETRIES < k ->
      exists p',
        connectWithRetry mongoose_connect (MAX_RETRIES + 1) 0 p
        = Some (Exited 1, p')
        /\ pauses p' = (repeat 5000%N MAX_RETRIES ++ pauses p)%list
        /\ sleeps p' = sleeps p + MAX_RETRIES
        /\ connects p' = connects p + MAX_RETRIES + 1
        /\ hd_error (trace p') = Some (Exit 1)).
Proof.
  intros Hf Hrest. split; intros Hk.
  - destruct (bounded_loop_through_failures k 0 1 p rest Hf)
      as (p' & Hrun & Hrest' & Hs & Hc & _ & Hp); [cbn; lia |].
    rewrite Hrun. cbn [connectWithRetry]. unfold mongoose_connect.
    rewrite Hrest'.
    assert (Hok : match rest with true :: _ => true | _ => false end = false).
    { destruct rest as [| [|] l]; cbn in Hrest; congruence. }
    destruct rest as [| [|] l]; try discriminate Hok;
      eexists; (split; [reflexivity |]);
      (split; [unfold pauses in *; cbn; exact Hp |]);
      unfold sleeps, connects in *; cbn; split; lia.
  - assert (Hsplit : failures p
                     = (repeat true MAX_RETRIES
                        ++ true :: repeat true (k - S MAX_RETRIES) ++ rest)
                       %list).
    { rewrite Hf.
      replace k with (MAX_RETRIES + S (k - S MAX_RETRIES)) at 1 by lia.
      rewrite repeat_app, <- app_assoc. reflexivity. }
    destruct (bounded_loop_through_failures MAX_RETRIES 0 1 p _ Hsplit)
      as (p' & Hrun & Hrest' & Hs & Hc & _ & Hp); [cbn; lia |].
    rewrite Hrun. cbn [connectWithRetry]. unfold mongoose_connect.
    rewrite Hrest'. cbn.
    eexists. split; [reflexivity |].
    split; [unfold pauses in *; cbn; exact Hp |].
    unfold sleeps, connects in *. cbn. repeat split; lia.
Qed.

(** X18. The unbounded loop, given a [connectDB] that rejects when the
    connection fails, never ends the process: whenever it comes to an end
    it has resolved, and after [k] failures followed by a success it
    resolves with [k] pauses, for every [k]. *)
Theorem unbounded_loop_never_gives_up :
  (forall fuel p o p',
      connectWithRetry_unbounded mongoose_connect fuel p = Some (o, p') ->
      o = Resolved)
  /\ (forall k p rest,
        failures p = (repeat true k ++ rest)%list ->
        hd false rest = false ->
        exists p',
          connectWithRetry_unbounded mongoose_connect (S k) p
          = Some (Resolved, p')
          /\ sleeps p' = sleeps p + k
          /\ connects p' = connects p + k + 1).
Proof.
  split.
  - induction fuel as [| fuel IH]; intros p o p' H; [discriminate |].
    cbn [connectWithRetry_unbounded] in H. unfold mongoose_connect in H.
    destruct (failures p) as [| [|] l].
    + inversion H. reflexivity.
    + apply IH in H. exact H.
    + inversion H. reflexivity.
  - induction k as [| k IH]; intros p rest Hf Hrest.
    + cbn [connectWithRetry_unbounded]. unfold mongoose_connect.
      cbn [repeat app] in Hf. rewrite Hf.
      destruct rest as [| [|] l]; try discriminate Hrest;
        eexists; (split; [reflexivity |]);
        unfold sleeps, connects; cbn; split; lia.
    + cbn [connectWithRetry_unbounded]. unfold mongoose_connect at 1.
      cbn [repeat app] in Hf. rewrite Hf.
      set (p1 := emit (Sleep 5000)
                   (emit (Log "Retrying connection in 5 seconds...")
                      (emit (Log "MongoDB connection error")
                         (mkProc (tl (true :: repeat true k ++ rest))
                                 (Connect :: trace p))))).
      destruct (IH p1 rest eq_refl Hrest) as (p' & Hrun & Hs & Hc).
      exists p'. split; [exact Hrun |].
      rewrite Hs, Hc. unfold sleeps, connects, p1. cbn. split; lia.
Qed.

(** X19. Run with the [connectDB] of config/db.js, the function
    [connectWithRetry] of the first variant and that of the second do the
    same on every schedule.  When MONGODB_URI is unset or empty they end
    the process with code 1 without an attempt; otherwise they make
    exactly one attempt, resolve when it connects and end the process
    with code 1 when it fails.  Neither ever pauses. *)
Theorem connectWithRetry_variants_agree
        (uri : option string) (p : Proc) (fuel retryCount : nat) :
  let outcome :=
    if missing uri then Exited 1
    else if hd false (failures p) then Exited 1
    else Resolved in
  exists p',
    connectWithRetry (connectDB uri) (S fuel) retryCount p
    = Some (outcome, p')
    /\ connectWithRetry_unbounded (connectDB uri) (S fuel) p
       = Some (outcome, p')
    /\ pauses p' = pauses p
    /\ sleeps p' = sleeps p
    /\ connects p' = connects p + (if missing uri then 0 else 1).
Proof.
  cbv zeta. unfold connectDB, mongoose_connect.
  cbn [connectWithRetry connectWithRetry_unbounded].
  destruct (missing uri).
  - cbn. eexists. repeat split; auto; unfold connects; cbn; lia.
  - destruct (failures p) as [| [|] l]; cbn;
      eexists; repeat split; auto; unfold connects; cbn; lia.
Qed.

End BootstrapMore.

(** ** Further properties of server.js *)

Section ServerFacts.

Import Server.

(** X20. In the second variant every OPTIONS request, to any path and
    whatever is registered later, is answered 204 by [app.options('*')]:
    an origin of the allow-list gets itself back with the methods, the
    headers, the credentials flag and [Vary]; any other origin, and a
    request without one, gets no header at all. *)
Theorem app_preflight_respects_allow_list
        (middleware credential_routes later : list Cors.Layer)
        (req : Cors.Request) :
  Cors.method req = Cors.OPTIONS ->
  let res := Cors.respond (Cors.app middleware credential_routes later) req in
  Cors.statusCode res = 204
  /\ (Cors.includes Cors.allowedOrigins (Cors.origin req) = true ->
      Cors.get_header "Access-Control-Allow-Origin" res = Cors.origin req
      /\ Cors.get_header "Access-Control-Allow-Methods" res
         = Some "GET, POST, PUT, DELETE, OPTIONS"
      /\ Cors.get_header "Access-Control-Allow-Headers" res
         = Some "Content-Type, Authorization, x-auth-token"
      /\ Cors.get_header "Access-Control-Allow-Credentials" res = Some "true"
      /\ Cors.get_header "Vary" res = Some "Origin")
  /\ (Cors.includes Cors.allowedOrigins (Cors.origin req) = false ->
      Cors.headers res = []).
Proof.
  intros Hm. cbv zeta. rewrite (app_preflight_answered_first _ _ _ _ Hm).
  unfold Cors.options_all.
  destruct (Cors.includes Cors.allowedOrigins (Cors.origin req)) eqn:Hin.
  - split; [reflexivity |]. split; [| discriminate]. intros _.
    destruct (Cors.origin req) as [o |]; [| discriminate Hin].
    repeat split.
  - split; [reflexivity |]. split; [discriminate |]. intros _. reflexivity.
Qed.

(** X21. The second variant's error handler answers an error whose
    message contains 'CORS' with 403, the message and the allow-list, in
    every environment; any other error gets the status and the error text
    the first variant gives it.  The first variant sends the error's
    message in development and never outside it; outside development the
    second variant sends, for an error without 'CORS', a fixed message
    for a timeout and none otherwise. *)
Theorem error_message_disclosure (NODE_ENV : option string) (err : Err) :
  (includes "CORS" (message err) = true ->
   errorHandler_cors NODE_ENV err
   = mkErrorAnswer 403
       (mkErrorJson "Forbidden - CORS" (Some (message err))
                    (Some Cors.allowedOrigins)))
  /\ (includes "CORS" (message err) = false ->
      statusCode (errorHandler_cors NODE_ENV err)
      = statusCode (errorHandler NODE_ENV err)
      /\ error (json (errorHandler_cors NODE_ENV err))
         = error (json (errorHandler NODE_ENV err)))
  /\ (NODE_ENV = Some "development" ->
      body_message (json (errorHandler NODE_ENV err)) = Some (message err))
  /\ (NODE_ENV <> Some "development" ->
      body_message (json (errorHandler NODE_ENV err)) = None
      /\ (includes "CORS" (message err) = false ->
          body_message (json (errorHandler_cors NODE_ENV err))
          = (if is_ETIMEDOUT err
             then Some "Request took too long to process" else None))).
Proof.
  unfold errorHandler, errorHandler_cors. cbn [json body_message].
  split; [intros Hc; rewrite Hc; reflexivity |].
  split; [intros Hc; rewrite Hc; destruct (is_ETIMEDOUT err);
          split; reflexivity |].
  split; [intros ->; reflexivity |].
  intros Henv.
  assert (Hdev : development_only NODE_ENV err = None).
  { unfold development_only. destruct NODE_ENV as [env |]; [| reflexivity].
    destruct (String.eqb_spec env "development") as [-> | _];
      [contradiction | reflexivity]. }
  split; [exact Hdev |]. intros Hc. rewrite Hc.
  destruct (is_ETIMEDOUT err); [reflexivity | exact Hdev].
Qed.

Lemma inner_loop (nets : list NetInterface) (acc : list string) :
  fold_left
    (fun addresses net =>
       if reachable net then (addresses ++ [address net])%list
       else addresses)
    nets acc
  = (acc ++ map address (filter reachable nets))%list.
Proof.
  revert acc. induction nets as [| net nets IH]; intros acc; cbn.
  - rewrite app_nil_r. reflexivity.
  - rewrite IH. destruct (reachable net); cbn; [| reflexivity].
    rewrite <- app_assoc. reflexivity.
Qed.

Lemma lookup_unique (pre post : Interfaces) (name : string)
      (nets : list NetInterface) :
  NoDup (map fst (pre ++ (name, nets) :: post)%list) ->
  lookup name (pre ++ (name, nets) :: post)%list = nets.
Proof.
  unfold lookup. induction pre as [| [k v] pre IH]; cbn; intros Hnd.
  - rewrite String.eqb_refl. reflexivity.
  - inversion Hnd as [| x l Hk Hrest]; subst.
    destruct (String.eqb_spec k name) as [-> | _].
    + exfalso. apply Hk. rewrite map_app. apply in_or_app. right.
      left. reflexivity.
    + apply IH. exact Hrest.
Qed.

Lemma outer_loop (all : Interfaces) :
  NoDup (map fst all) ->
  forall (todo done : Interfaces) (acc : list string),
    all = (done ++ todo)%list ->
    fold_left
      (fun addresses name =>
         fold_left
           (fun addresses net =>
              if reachable net then (addresses ++ [address net])%list
              else addresses)
           (lookup name all) addresses)
      (map fst todo) acc
    = (acc ++ map address (filter reachable (concat (map snd todo))))%list.
Proof.
  intros Hnd todo.
  induction todo as [| [name nets] todo IH]; intros done acc Hall; cbn.
  - rewrite app_nil_r. reflexivity.
  - rewrite inner_loop.
    assert (Hl : lookup name all = nets).
    { rewrite Hall. apply lookup_unique. rewrite <- Hall. exact Hnd. }
    rewrite Hl.
    rewrite (IH (done ++ [(name, nets)])%list).
    + rewrite filter_app, map_app, app_assoc. reflexivity.
    + rewrite <- app_assoc. exact Hall.
Qed.

(** X22. The two variants list the same addresses, in the same order: the
    nested loops of the second variant compute what the first variant's
    [flat], [filter] and [map] compute, so both announce the same
    address; and an address is listed exactly when it belongs to an IPv4
    address of some interface that is not internal. *)
Theorem address_listings_agree (ifs : Interfaces) :
  NoDup (map fst ifs) ->
  addresses_loops ifs = addresses ifs
  /\ announced (addresses_loops ifs) = announced (addresses ifs)
  /\ forall a,
       In a (addresses ifs) <->
       exists name nets net,
         In (name, nets) ifs /\ In net nets
         /\ family net = "IPv4" /\ internal net = false
         /\ address net = a.
Proof.
  intros Hnd.
  assert (Heq : addresses_loops ifs = addresses ifs).
  { unfold addresses_loops, addresses.
    rewrite (outer_loop ifs Hnd ifs [] []); reflexivity. }
  split; [exact Heq |]. split; [rewrite Heq; reflexivity |].
  intros a. unfold addresses. rewrite in_map_iff. split.
  - intros (net & Ha & Hin). apply filter_In in Hin.
    destruct Hin as [Hin Hr]. apply in_concat in Hin.
    destruct Hin as (nets & Hnets & Hnet). apply in_map_iff in Hnets.
    destruct Hnets as ([name nets'] & Hs & Hifs). cbn in Hs. subst nets'.
    unfold reachable in Hr. apply andb_true_iff in Hr.
    destruct Hr as [Hf Hi]. apply String.eqb_eq in Hf.
    apply negb_true_iff in Hi.
    exists name, nets, net. repeat split; assumption.
  - intros (name & nets & net & Hifs & Hnet & Hf & Hi & Ha).
    exists net. split; [exact Ha |]. apply filter_In. split.
    + apply in_concat. exists nets. split; [| exact Hnet].
      apply in_map_iff. exists (name, nets). split; [reflexivity | exact Hifs].
    + unfold reachable. rewrite Hf, Hi. reflexivity.
Qed.

End ServerFacts.

(** ** The further properties on a concrete store *)

Lemma consistent_sample : consistent Sample.world.
Proof.
  unfold consistent. cbn. split; [| split].
  - constructor; [intros [H | []]; discriminate H |].
    constructor; [intros [] | constructor].
  - constructor; [intros [H | []]; discriminate H |].
    constructor; [intros [] | constructor].
  - repeat constructor.
Defined.


Lemma store_failure_answers_500_witness :
  next_fails Sample.broken = true
  /\ fst (login Sample.compare Sample.hmac Sample.JWT_SECRET
                "a@x.com" "pw1" Sample.broken)
     = server_error.
Proof.
  split; [reflexivity |].
  apply (store_failure_answers_500
           Sample.hash Sample.compare Sample.hmac Sample.validate
           Sample.JWT_SECRET Sample.carol "a@x.com" "pw1" 1
           (name_only "X") Sample.broken eq_refl).
Defined.

Lemma signup_failed_save_stores_nothing_witness :
  fst (findOne "c@x.com" Sample.world) = Ok None
  /\ Sample.validate
       (before_hash (mkSignupRequest "" "c@x.com" "pw3" None None)
                    Sample.world) = false
  /\ users (snd (signup Sample.hash Sample.hmac Sample.validate
                        Sample.JWT_SECRET
                        (mkSignupRequest "" "c@x.com" "pw3" None None)
                        Sample.world))
     = users Sample.world.
Proof.
  split; [reflexivity |]. split; [reflexivity |].
  apply (signup_failed_save_stores_nothing
           Sample.hash Sample.hmac Sample.validate Sample.JWT_SECRET
           (mkSignupRequest "" "c@x.com" "pw3" None None) Sample.world
           eq_refl (or_introl eq_refl)).
Defined.

Lemma updateProfile_missing_user_404_witness :
  fst (findById 7 Sample.world) = Ok None
  /\ fst (updateProfile Sample.hash Sample.validate 7 (name_only "X")
                        Sample.world)
     = mkResponse 404 (ErrorBody "User not found").
Proof.
  split; [reflexivity |].
  apply (updateProfile_missing_user_404
           Sample.hash Sample.validate 7 (name_only "X") Sample.world
           eq_refl).
Defined.

Lemma updateProfile_leaves_other_users_witness :
  2 <> 1
  /\ stored 2 (snd (updateProfile Sample.hash Sample.validate 1
                      (name_only "X") Sample.world))
     = stored 2 Sample.world.
Proof.
  split; [discriminate |].
  apply (updateProfile_leaves_other_users
           Sample.hash Sample.validate 1 2 (name_only "X") Sample.world).
  discriminate.
Defined.

Lemma updateProfile_preserves_consistency_witness :
  consistent Sample.world
  /\ consistent
       (snd (updateProfile Sample.hash Sample.validate 1
               (mkUpdateRequest None (Some "z@x.com") None None None)
               Sample.world)).
Proof.
  split; [exact consistent_sample |].
  apply (updateProfile_preserves_consistency
           Sample.hash Sample.validate 1
           (mkUpdateRequest None (Some "z@x.com") None None None)
           Sample.world consistent_sample).
Defined.

Lemma updateProfile_own_email_accepted_witness :
  stored 1 Sample.world = Some Sample.alice
  /\ healthy 2 Sample.world
  /\ fst (updateProfile Sample.hash Sample.validate 1
            (mkUpdateRequest None (Some "a@x.com") None None None)
            Sample.world)
     = update_done.
Proof.
  split; [reflexivity |]. split; [apply healthy_sample |].
  apply (updateProfile_own_email_accepted
           Sample.hash Sample.validate 1
           (mkUpdateRequest None (Some "a@x.com") None None None)
           Sample.world Sample.alice eq_refl eq_refl (healthy_sample 2)
           eq_refl).
Defined.

Lemma updateProfile_idempotent_witness :
  status (fst (updateProfile Sample.hash Sample.validate 1
                 (mkUpdateRequest (Some "X") (Some "z@x.com") None None None)
                 Sample.world)) = 200
  /\ users (snd (updateProfile Sample.hash Sample.validate 1
                   (mkUpdateRequest (Some "X") (Some "z@x.com")
                                    None None None)
                   (snd (updateProfile Sample.hash Sample.validate 1
                           (mkUpdateRequest (Some "X") (Some "z@x.com")
                                            None None None)
                           Sample.world))))
     = users (snd (updateProfile Sample.hash Sample.validate 1
                     (mkUpdateRequest (Some "X") (Some "z@x.com")
                                      None None None)
                     Sample.world)).
Proof.
  split; [reflexivity |].
  apply (updateProfile_idempotent
           Sample.hash Sample.validate 1
           (mkUpdateRequest (Some "X") (Some "z@x.com") None None None)
           Sample.world eq_refl eq_refl).
Defined.

Lemma signup_preserves_consistency_witness :
  consistent Sample.world
  /\ consistent (snd (signup Sample.hash Sample.hmac Sample.validate
                             Sample.JWT_SECRET Sample.carol Sample.world)).
Proof.
  split; [exact consistent_sample |].
  apply (signup_preserves_consistency
           Sample.hash Sample.hmac Sample.validate Sample.JWT_SECRET
           Sample.carol Sample.world consistent_sample).
Defined.


Lemma signup_twice_is_duplicate_witness :
  status (fst (signup Sample.hash Sample.hmac Sample.validate
                      Sample.JWT_SECRET Sample.carol Sample.world)) = 201
  /\ fst (signup Sample.hash Sample.hmac Sample.validate Sample.JWT_SECRET
                 (mkSignupRequest "C2" "c@x.com" "other" None None)
                 (snd (signup Sample.hash Sample.hmac Sample.validate
                              Sample.JWT_SECRET Sample.carol Sample.world)))
     = duplicate_email.
Proof.
  split; [reflexivity |].
  apply (signup_twice_is_duplicate
           Sample.hash Sample.hmac Sample.validate Sample.JWT_SECRET
           Sample.carol (mkSignupRequest "C2" "c@x.com" "other" None None)
           Sample.world eq_refl eq_refl eq_refl).
Defined.


Lemma bounded_loop_counts_retries_witness :
  Bootstrap.failures (Bootstrap.mkProc [true; true; false] [])
  = (repeat true 2 ++ [false])%list
  /\ exists p',
       Bootstrap.connectWithRetry Bootstrap.mongoose_connect 3 0
         (Bootstrap.mkProc [true; true; false] [])
       = Some (Bootstrap.Resolved, p')
       /\ Bootstrap.pauses p' = [5000%N; 5000%N].
Proof.
  split; [reflexivity |].
  destruct (bounded_loop_counts_retries
              (Bootstrap.mkProc [true; true; false] []) 2 [false]
              eq_refl eq_refl)
    as [Hrecover _].
  destruct Hrecover as (p' & Hrun & Hp & _);
    [unfold Bootstrap.MAX_RETRIES; lia |].
  exists p'. split; [exact Hrun | exact Hp].
Defined.

Lemma unbounded_loop_never_gives_up_witness :
  exists p',
    Bootstrap.connectWithRetry_unbounded Bootstrap.mongoose_connect 8
      (Bootstrap.mkProc (repeat true 7) [])
    = Some (Bootstrap.Resolved, p')
    /\ Bootstrap.sleeps p' = 7.
Proof.
  destruct unbounded_loop_never_gives_up as [_ Hrecover].
  destruct (Hrecover 7 (Bootstrap.mkProc (repeat true 7) []) []
                     eq_refl eq_refl)
    as (p' & Hrun & Hs & _).
  exists p'. split; [exact Hrun | exact Hs].
Defined.

Lemma app_preflight_respects_allow_list_witness :
  Cors.method (Cors.mkRequest Cors.OPTIONS "/api/auth/signup"
                              (Some "https://evil.example"))
  = Cors.OPTIONS
  /\ Cors.headers
       (Cors.respond (Cors.app [] [] [])
          (Cors.mkRequest Cors.OPTIONS "/api/auth/signup"
                          (Some "https://evil.example")))
     = [].
Proof.
  split; [reflexivity |].
  apply (app_preflight_respects_allow_list
           [] [] []
           (Cors.mkRequest Cors.OPTIONS "/api/auth/signup"
                           (Some "https://evil.example"))
           eq_refl).
  reflexivity.
Defined.

Lemma error_message_disclosure_witness :
  Some "production" <> Some "development"
  /\ Server.body_message
       (Server.json
          (Server.errorHandler_cors (Some "production")
             (Server.mkErr "Not allowed by CORS" None)))
     = Some "Not allowed by CORS".
Proof.
  split; [discriminate |].
  destruct (error_message_disclosure
              (Some "production") (Server.mkErr "Not allowed by CORS" None))
    as (Hcors & _).
  rewrite (Hcors eq_refl). reflexivity.
Defined.

Lemma address_listings_agree_witness :
  NoDup (map fst
           [("lo", [Server.mkNetInterface "127.0.0.1" "IPv4" true]);
            ("eth0", [Server.mkNetInterface "fe80::1" "IPv6" false;
                      Server.mkNetInterface "10.0.0.5" "IPv4" false])])
  /\ Server.announced
       (Server.addresses_loops
          [("lo", [Server.mkNetInterface "127.0.0.1" "IPv4" true]);
           ("eth0", [Server.mkNetInterface "fe80::1" "IPv6" false;
                     Server.mkNetInterface "10.0.0.5" "IPv4" false])])
     = Some "10.0.0.5".
Proof.
  assert (Hnd : NoDup (map fst
           [("lo", [Server.mkNetInterface "127.0.0.1" "IPv4" true]);
            ("eth0", [Server.mkNetInterface "fe80::1" "IPv6" false;
                      Server.mkNetInterface "10.0.0.5" "IPv4" false])])).
  { cbn. constructor; [intros [H | []]; discriminate H |].
    constructor; [intros [] | constructor]. }
  split; [exact Hnd |].
  destruct (address_listings_agree _ Hnd) as (_ & Hann & _).
  rewrite Hann. reflexivity.
Defined.

Lemma signup_stores_at_most_one_witness :
  usable None = false
  /\ fst (findOne "c@x.com" Sample.world) = Ok None
  /\ Sample.validate (before_hash Sample.carol Sample.world) = true
  /\ fst (signup_env Sample.hash Sample.hmac Sample.validate None
                     Sample.carol Sample.world)
     = server_error
  /\ length (users (snd (signup_env Sample.hash Sample.hmac Sample.validate
                                    None Sample.carol Sample.world)))
     = 3.
Proof.
  split; [reflexivity |]. split; [reflexivity |]. split; [reflexivity |].
  destruct (signup_stores_at_most_one
              Sample.hash Sample.hmac Sample.validate None
              Sample.carol Sample.world)
    as [_ Hstored].
  destruct (Hstored eq_refl eq_refl eq_refl eq_refl) as [Hr Hu].
  split; [exact Hr |]. rewrite Hu. reflexivity.
Defined.

Lemma preflight_headers_only_for_allow_list_witness :
  Cors.method (Cors.mkRequest Cors.OPTIONS "/api/auth/signup"
                              (Some "https://evil.example"))
  = Cors.OPTIONS
  /\ Cors.grants
       (Cors.respond (Cors.app [] [] [])
          (Cors.mkRequest Cors.OPTIONS "/api/auth/signup"
                          (Some "https://evil.example")))
     = false
  /\ Cors.get_header "Access-Control-Allow-Origin"
       (Cors.respond (Cors.app [] [] [])
          (Cors.mkRequest Cors.OPTIONS "/api/auth/signup"
                          (Some "http://localhost:3000")))
     = Some "http://localhost:3000".
Proof.
  split; [reflexivity |]. split.
  - destruct (preflight_headers_only_for_allow_list
                [] [] []
                (Cors.mkRequest Cors.OPTIONS "/api/auth/signup"
                                (Some "https://evil.example"))
                eq_refl)
      as (_ & Hg & _).
    rewrite Hg. reflexivity.
  - apply (preflight_headers_only_for_allow_list
             [] [] []
             (Cors.mkRequest Cors.OPTIONS "/api/auth/signup"
                             (Some "http://localhost:3000"))
             eq_refl).
    split; [reflexivity |]. right. left. reflexivity.
Defined.
